(** * The documentation-README generator and the lint-report bot

    A shallow embedding of [.config/scripts/generate_docs_readme.py] and
    [.config/scripts/generate_lint_report.py].

    Both scripts are dynamically typed: the configuration is whatever
    [yaml.safe_load] returned, and every [.get], truth test, f-string and
    [join] acts on a Python object.  The embedding keeps that: a type
    [value] of Python objects, an exception type, and the built-ins the
    scripts call, each failing where Python raises. *)

From Stdlib Require Import String Ascii List ZArith Bool Lia DecimalString.
Import ListNotations.
Open Scope string_scope.

(** ** Python objects and built-ins *)

Module Py.

(** Exceptions the two scripts can meet.  [OSError] stands for every
    [OSError] other than [FileNotFoundError]; [ServiceError] for whatever
    the completion or source-hosting client raises. *)
Inductive exn : Type :=
| AttributeError
| TypeError
| IndexError
| ValueError
| FileNotFoundError
| OSError
| ServiceError.

Inductive result (A : Type) : Type :=
| Ok (a : A)
| Raise (e : exn).
Arguments Ok {A} a.
Arguments Raise {A} e.

Definition bind {A B : Type} (m : result A) (k : A -> result B) : result B :=
  match m with
  | Ok a => k a
  | Raise e => Raise e
  end.

(** The objects of a loaded configuration: [None], booleans, integers,
    strings, lists and dicts (floats and dates, which YAML also has, are
    left out).  A dict is kept as an association list in insertion order;
    its keys are strings.  Strings are byte strings holding UTF-8 text. *)
#[warnings="-register-all"] Inductive value : Type :=
| VNone
| VBool (b : bool)
| VInt (n : Z)
| VStr (s : string)
| VList (items : list value)
| VDict (entries : list (string * value)).

Definition dict : Type := list (string * value).

(** Truth value of an object, as [if x:] tests it. *)
Definition truthy (v : value) : bool :=
  match v with
  | VNone => false
  | VBool b => b
  | VInt n => negb (n =? 0)%Z
  | VStr s => negb (s =? "")
  | VList items => match items with [] => false | _ :: _ => true end
  | VDict entries => match entries with [] => false | _ :: _ => true end
  end.

Fixpoint lookup (k : string) (d : dict) : option value :=
  match d with
  | [] => None
  | (k', v) :: rest => if k' =? k then Some v else lookup k rest
  end.

(** [d.get(k, default)] on a dict. *)
Definition dict_get (d : dict) (k : string) (default : value) : value :=
  match lookup k d with
  | Some v => v
  | None => default
  end.

(** [obj.get(k, default)] on any object: only a dict has the method. *)
Definition get (obj : value) (k : string) (default : value) : result value :=
  match obj with
  | VDict d => Ok (dict_get d k default)
  | _ => Raise AttributeError
  end.

Fixpoint chars (s : string) : list value :=
  match s with
  | EmptyString => []
  | String c rest => VStr (String c EmptyString) :: chars rest
  end.

(** The elements a [for] loop visits: the items of a list, the keys of a
    dict, the characters of a string (here byte by byte; every element
    is a string either way). *)
Definition iter (v : value) : result (list value) :=
  match v with
  | VList items => Ok items
  | VDict entries => Ok (map (fun kv => VStr (fst kv)) entries)
  | VStr s => Ok (chars s)
  | _ => Raise TypeError
  end.

Definition str_of_Z (n : Z) : string := NilZero.string_of_int (Z.to_int n).

(** [str()] of a list or dict is [repr] of the interpreter, which is not
    part of the repository: the development holds for any such function. *)
Class Repr : Type := repr : value -> string.

(** A stand-in for the interpreter's [repr] in the concrete runs further
    down, none of which formats a list or a dict. *)
Definition plain_repr : Repr := fun _ => "<object>".

(** [str(v)], which an f-string applies to each [{...}] field. *)
Definition str `{Repr} (v : value) : string :=
  match v with
  | VNone => "None"
  | VBool true => "True"
  | VBool false => "False"
  | VInt n => str_of_Z n
  | VStr s => s
  | VList _ | VDict _ => repr v
  end.

(** [sep.join(items)]: every item has to be a string. *)
Fixpoint join (sep : string) (items : list value) : result string :=
  match items with
  | [] => Ok ""
  | VStr s :: rest =>
      match rest with
      | [] => Ok s
      | _ :: _ => bind (join sep rest) (fun t => Ok (s ++ sep ++ t))
      end
  | _ :: _ => Raise TypeError
  end.

(** [lines.append(x)] and [lines.extend(more)], on an immutable list. *)
Definition append {A : Type} (lines : list A) (x : A) : list A :=
  (lines ++ [x])%list.

Definition extend {A : Type} (lines more : list A) : list A :=
  (lines ++ more)%list.

Definition nl : string := String "010"%char EmptyString.
Definition dq : string := String "034"%char EmptyString.

(** [s.strip()].  The characters Python counts as whitespace are U+0009 to
    U+000D, U+001C to U+0020, U+0085, U+00A0, U+1680, U+2000 to U+200A,
    U+2028, U+2029, U+202F, U+205F and U+3000; they are recognised here by
    their UTF-8 encodings of one, two or three bytes.  No encoding of a
    whitespace character is a suffix of another character's, so the right
    end can be stripped on the reversed bytes. *)
Definition space1 (a : ascii) : bool :=
  let a := nat_of_ascii a in
  ((9 <=? a) && (a <=? 13) || (28 <=? a) && (a <=? 32))%nat.

Definition space2 (a b : ascii) : bool :=
  let a := nat_of_ascii a in
  let b := nat_of_ascii b in
  ((a =? 194) && ((b =? 133) || (b =? 160)))%nat.

Definition space3 (a b c : ascii) : bool :=
  let a := nat_of_ascii a in
  let b := nat_of_ascii b in
  let c := nat_of_ascii c in
  ((a =? 225) && (b =? 154) && (c =? 128)
   || (a =? 226) && (b =? 128)
      && ((128 <=? c) && (c <=? 138) || (c =? 168) || (c =? 169) || (c =? 175))
   || (a =? 226) && (b =? 129) && (c =? 159)
   || (a =? 227) && (b =? 128) && (c =? 128))%nat.

Fixpoint lstrip_bytes (l : list ascii) : list ascii :=
  match l with
  | [] => []
  | a :: t =>
      if space1 a then lstrip_bytes t
      else
        match t with
        | [] => l
        | b :: u =>
            if space2 a b then lstrip_bytes u
            else
              match u with
              | [] => l
              | c :: v => if space3 a b c then lstrip_bytes v else l
              end
        end
  end.

(** The same on the reversed bytes, where an encoding reads backwards. *)
Fixpoint rstrip_reversed (l : list ascii) : list ascii :=
  match l with
  | [] => []
  | c :: t =>
      if space1 c then rstrip_reversed t
      else
        match t with
        | [] => l
        | b :: u =>
            if space2 b c then rstrip_reversed u
            else
              match u with
              | [] => l
              | a :: v => if space3 a b c then rstrip_reversed v else l
              end
        end
  end.

Definition strip (s : string) : string :=
  string_of_list_ascii
    (rev (rstrip_reversed (rev (lstrip_bytes (list_ascii_of_string s))))).

End Py.

Import Py.

Notation "x <- m ;; k" := (Py.bind m (fun x => k))
  (at level 61, m at next level, right associativity).

(** ** generate_docs_readme.py *)

Module DocsReadme.

(** *** The world the script runs in *)

(** What opening and parsing a configuration path gives: [open] raises
    [FileNotFoundError], [open] or [read] raises something else (which
    [load_config] does not catch), [yaml.safe_load] raises [YAMLError], or
    the document is loaded. *)
Inductive source : Type :=
| Missing
| Unreadable
| Malformed
| Document (v : value).

(** Whether each step of writing the output goes through. *)
Record disk : Type := {
  makedirs_ok : bool;
  open_ok : bool;
  write_ok : bool
}.

Record world : Type := {
  files : string -> source;
  storage : disk
}.

(** What the script prints, one constructor per [print] call of the source
    (the text of a caught exception, which two of the messages end with, is
    left out). *)
Inductive message : Type :=
| ConfigNotFound (config_path : string)
| ConfigParseError (config_path : string)
| Generated (output_path : string)
| WriteFailed (output_path : string)
| AllDone.

(** Observable actions of a run, in the order they happen.  A file-system
    action is recorded when it went through: [OpenTruncate] leaves the file
    empty, [FileWrite] puts the text in it. *)
Inductive event : Type :=
| Stdout (m : message)
| Makedirs (dir : string)
| OpenTruncate (path : string)
| FileWrite (path : string) (text : string).

(** [os.path.dirname] of posixpath: the part up to the last slash, without
    its trailing slashes unless it is made of slashes only. *)
Fixpoint drop_to_slash (l : list ascii) : list ascii :=
  match l with
  | [] => []
  | c :: rest => if (c =? "/")%char then l else drop_to_slash rest
  end.

Fixpoint drop_slashes (l : list ascii) : list ascii :=
  match l with
  | [] => []
  | c :: rest => if (c =? "/")%char then drop_slashes rest else l
  end.

Definition dirname (p : string) : string :=
  let head := drop_to_slash (rev (list_ascii_of_string p)) in
  match drop_slashes head with
  | [] => string_of_list_ascii (rev head)
  | stripped => string_of_list_ascii (rev stripped)
  end.

Section Generator.

Context `{Repr}.

(** *** load_config *)

Definition load_config (w : world) (config_path : string)
  : list event * result value :=
  match files w config_path with
  | Document v => ([], Ok v)
  | Missing => ([Stdout (ConfigNotFound config_path)], Ok VNone)
  | Malformed => ([Stdout (ConfigParseError config_path)], Ok VNone)
  | Unreadable => ([], Raise OSError)
  end.

(** *** generate_header *)

Definition generate_header (config : value) : result (list value) :=
  header <- get config "header" (VDict []) ;;
  styling <- get config "styling" (VDict []) ;;
  let lines := [] in
  title <- get header "title" (VStr "Documentation") ;;
  let lines := append lines (VStr ("# " ++ str title)) in
  let lines := append lines (VStr "") in
  show_image <- get styling "show_image" (VBool true) ;;
  lines <-
    (if truthy show_image then
       image_config <- get header "image" (VDict []) ;;
       if truthy image_config then
         let lines :=
           append lines (VStr ("<div align=" ++ dq ++ "center" ++ dq ++ ">")) in
         src <- get image_config "src" (VStr "./images/deco_gopher.png") ;;
         alt <- get image_config "alt" (VStr "Go Gopher Artist") ;;
         width <- get image_config "width" (VInt 200) ;;
         height <- get image_config "height" (VInt 200) ;;
         let lines := append lines
           (VStr ("  <img src=" ++ dq ++ str src ++ dq ++ " "
                  ++ "alt=" ++ dq ++ str alt ++ dq ++ " "
                  ++ "width=" ++ dq ++ str width ++ dq ++ " "
                  ++ "height=" ++ dq ++ str height ++ dq ++ ">")) in
         let lines := append lines (VStr "  <br>") in
         caption <- get image_config "caption" (VStr "") ;;
         let lines :=
           if truthy caption
           then append lines (VStr ("  <em>" ++ str caption ++ "</em>"))
           else lines in
         let lines := append lines (VStr "</div>") in
         Ok (append lines (VStr ""))
       else Ok lines
     else Ok lines) ;;
  subtitle <- get header "subtitle" (VStr "") ;;
  if truthy subtitle
  then Ok (append (append lines subtitle) (VStr ""))
  else Ok lines.

(** *** generate_sections *)

Definition sections_heading : string := "## 📚 Documentation Sections".

(** The body of the [for section in sections] loop, threading [lines]. *)
Fixpoint sections_loop (lines : list value) (sections : list value)
  : result (list value) :=
  match sections with
  | [] => Ok lines
  | section :: rest =>
      title <- get section "title" (VStr "") ;;
      file <- get section "file" (VStr "") ;;
      description <- get section "description" (VStr "") ;;
      let lines :=
        if truthy title && truthy file then
          let link := "- [" ++ str title ++ "](./" ++ str file ++ ")" in
          let link :=
            if truthy description
            then link ++ " - " ++ str description
            else link in
          append lines (VStr link)
        else lines in
      sections_loop lines rest
  end.

Definition generate_sections (config : value) : result (list value) :=
  sections <- get config "sections" (VList []) ;;
  styling <- get config "styling" (VDict []) ;;
  let lines := [] in
  if truthy sections then
    let lines := append lines (VStr sections_heading) in
    let lines := append lines (VStr "") in
    items <- iter sections ;;
    lines <- sections_loop lines items ;;
    Ok (append lines (VStr ""))
  else Ok lines.

(** *** generate_quick_links *)

Definition quick_links_heading : string := "## 🚀 Quick Links".

Fixpoint quick_links_loop (lines : list value) (quick_links : list value)
  : result (list value) :=
  match quick_links with
  | [] => Ok lines
  | link :: rest =>
      title <- get link "title" (VStr "") ;;
      url <- get link "url" (VStr "") ;;
      let lines :=
        if truthy title && truthy url
        then append lines (VStr ("- [" ++ str title ++ "](" ++ str url ++ ")"))
        else lines in
      quick_links_loop lines rest
  end.

Definition generate_quick_links (config : value) : result (list value) :=
  quick_links <- get config "quick_links" (VList []) ;;
  styling <- get config "styling" (VDict []) ;;
  let lines := [] in
  if truthy quick_links then
    let lines := append lines (VStr quick_links_heading) in
    let lines := append lines (VStr "") in
    items <- iter quick_links ;;
    lines <- quick_links_loop lines items ;;
    Ok (append lines (VStr ""))
  else Ok lines.

(** *** generate_readme *)

(** The three [lines.extend(...)] calls. *)
Definition render (config : value) : result (list value) :=
  let lines := [] in
  header <- generate_header config ;;
  let lines := extend lines header in
  sections <- generate_sections config ;;
  let lines := extend lines sections in
  quick_links <- generate_quick_links config ;;
  Ok (extend lines quick_links).

(** The body of the [try]: [os.makedirs] (which raises on the empty
    directory name), [open(..., 'w')], the [join] of the lines, and
    [f.write]. *)
Definition write_lines (d : disk) (output_path : string) (lines : list value)
  : list event * result unit :=
  let dir := dirname output_path in
  if (dir =? "") then ([], Raise FileNotFoundError)
  else if negb (makedirs_ok d) then ([], Raise OSError)
  else if negb (open_ok d) then ([Makedirs dir], Raise OSError)
  else
    match join nl lines with
    | Raise e => ([Makedirs dir; OpenTruncate output_path], Raise e)
    | Ok text =>
        if write_ok d
        then ([Makedirs dir; OpenTruncate output_path;
               FileWrite output_path text], Ok tt)
        else ([Makedirs dir; OpenTruncate output_path], Raise OSError)
    end.

Definition generate_readme (d : disk) (config : value) (output_path : string)
  : list event * result bool :=
  match render config with
  | Raise e => ([], Raise e)
  | Ok lines =>
      match write_lines d output_path lines with
      | (evs, Ok _) => (append evs (Stdout (Generated output_path)), Ok true)
      | (evs, Raise _) => (append evs (Stdout (WriteFailed output_path)), Ok false)
      end
  end.

(** *** main *)

(** A run of the script: what it did and its exit status.  [sys.exit(1)]
    and an exception nobody catches both end the process with status 1. *)
Definition main (w : world) : list event * Z :=
  let config_path := "docs.yaml" in
  let output_path := "docs/README.md" in
  match load_config w config_path with
  | (evs, Raise _) => (evs, 1%Z)
  | (evs, Ok config) =>
      if negb (truthy config) then (evs, 1%Z)
      else
        match generate_readme (storage w) config output_path with
        | (evs', Raise _) => (extend evs evs', 1%Z)
        | (evs', Ok success) =>
            if negb success then (extend evs evs', 1%Z)
            else (append (extend evs evs') (Stdout AllDone), 0%Z)
        end
  end.

(** *** The specification's reading of the renderers *)

(** A field counts as given when it is present and not empty. *)
Definition filled (k : string) (entry : dict) : bool :=
  truthy (dict_get entry k (VStr "")).

Definition text_of (k : string) (entry : dict) : string :=
  str (dict_get entry k (VStr "")).

(** The title heading and the blank line after it. *)
Definition title_lines (header : dict) : list value :=
  [ VStr ("# " ++ str (dict_get header "title" (VStr "Documentation")));
    VStr "" ].

(** The centered image block: opening tag, image tag with the fallback
    values, line break, caption in italics when one is given, closing tag,
    blank line. *)
Definition image_tag (image : dict) : string :=
  "  <img src=" ++ dq
  ++ str (dict_get image "src" (VStr "./images/deco_gopher.png")) ++ dq
  ++ " alt=" ++ dq
  ++ str (dict_get image "alt" (VStr "Go Gopher Artist")) ++ dq
  ++ " width=" ++ dq ++ str (dict_get image "width" (VInt 200)) ++ dq
  ++ " height=" ++ dq ++ str (dict_get image "height" (VInt 200)) ++ dq
  ++ ">".

Definition caption_lines (image : dict) : list string :=
  if filled "caption" image
  then [ "  <em>" ++ text_of "caption" image ++ "</em>" ]
  else [].

Definition div_open : string := "<div align=" ++ dq ++ "center" ++ dq ++ ">".

Definition image_block (image : dict) : list string :=
  ([ div_open; image_tag image; "  <br>" ]
   ++ caption_lines image ++ [ "</div>"; "" ])%list.

(** The subtitle paragraph and the blank line after it. *)
Definition subtitle_lines (header : dict) : list value :=
  if filled "subtitle" header
  then [ dict_get header "subtitle" (VStr ""); VStr "" ]
  else [].

(** One bullet of the sections list. *)
Definition section_bullet (entry : dict) : string :=
  "- [" ++ text_of "title" entry ++ "](./" ++ text_of "file" entry ++ ")"
  ++ (if filled "description" entry
      then " - " ++ text_of "description" entry
      else "").

Definition section_complete (entry : dict) : bool :=
  filled "title" entry && filled "file" entry.

(** The bullets of the entries that have a title and a file, in the order
    of the entries. *)
Definition section_bullets (entries : list dict) : list string :=
  map section_bullet (filter section_complete entries).

Definition link_bullet (entry : dict) : string :=
  "- [" ++ text_of "title" entry ++ "](" ++ text_of "url" entry ++ ")".

Definition link_complete (entry : dict) : bool :=
  filled "title" entry && filled "url" entry.

Definition link_bullets (entries : list dict) : list string :=
  map link_bullet (filter link_complete entries).

End Generator.

(** The configuration document of the specification's data model: a
    mapping whose keys are all optional, with [header] and [styling]
    mappings, [sections] and [quick_links] sequences of mappings, text
    fields holding text and [show_image] a boolean. *)
Definition is_text (v : value) : bool :=
  match v with VStr _ => true | _ => false end.

Definition is_boolean (v : value) : bool :=
  match v with VBool _ => true | _ => false end.

Definition is_mapping (p : dict -> bool) (v : value) : bool :=
  match v with VDict d => p d | _ => false end.

Definition is_sequence (p : value -> bool) (v : value) : bool :=
  match v with VList items => forallb p items | _ => false end.

Definition optional (k : string) (p : value -> bool) (d : dict) : bool :=
  match lookup k d with Some v => p v | None => true end.

Definition valid_image (d : dict) : bool :=
  optional "src" is_text d && optional "alt" is_text d
  && optional "caption" is_text d.

Definition valid_header (d : dict) : bool :=
  optional "title" is_text d
  && optional "image" (is_mapping valid_image) d
  && optional "subtitle" is_text d.

Definition valid_styling (d : dict) : bool :=
  optional "show_image" is_boolean d.

Definition valid_section (d : dict) : bool :=
  optional "title" is_text d && optional "file" is_text d
  && optional "description" is_text d.

Definition valid_link (d : dict) : bool :=
  optional "title" is_text d && optional "url" is_text d.

Definition valid_document (d : dict) : bool :=
  optional "header" (is_mapping valid_header) d
  && optional "styling" (is_mapping valid_styling) d
  && optional "sections" (is_sequence (is_mapping valid_section)) d
  && optional "quick_links" (is_sequence (is_mapping valid_link)) d.

Definition valid_config (config : value) : bool :=
  is_mapping valid_document config.

Definition healthy (d : disk) : bool :=
  makedirs_ok d && open_ok d && write_ok d.

(** *** Sample inputs *)

Definition sample_image : dict := [ ("caption", VStr "The mascot") ].

Definition sample_header : dict :=
  [ ("title", VStr "Deco");
    ("image", VDict sample_image);
    ("subtitle", VStr "Decorators for Go") ].

Definition sample_styling : dict := [ ("show_image", VBool true) ].

Definition sample_sections : list dict :=
  [ [ ("title", VStr "Usage"); ("file", VStr "usage.md");
      ("description", VStr "How to use it") ];
    [ ("title", VStr "Draft") ];
    [ ("title", VStr "API"); ("file", VStr "api.md") ] ].

Definition sample_links : list dict :=
  [ [ ("title", VStr "Home"); ("url", VStr "https://example.org") ] ].

Definition sample_cfg : dict :=
  [ ("header", VDict sample_header);
    ("styling", VDict sample_styling);
    ("sections", VList (map VDict sample_sections));
    ("quick_links", VList (map VDict sample_links)) ].

Definition sound_disk : disk :=
  {| makedirs_ok := true; open_ok := true; write_ok := true |}.

Definition full_disk : disk :=
  {| makedirs_ok := true; open_ok := true; write_ok := false |}.

(** A world whose [docs.yaml] holds the given document. *)
Definition world_with (config : source) (d : disk) : world :=
  {| files := fun path => if path =? "docs.yaml" then config else Missing;
     storage := d |}.

Definition sample_readme : string :=
  Eval vm_compute in
    match @render plain_repr (VDict sample_cfg) with
    | Ok lines => match join nl lines with Ok text => text | Raise _ => "" end
    | Raise _ => ""
    end.

(** A configuration whose subtitle YAML reads as a number. *)
Definition numeric_subtitle_cfg : dict :=
  [ ("header", VDict [ ("title", VStr "Deco"); ("subtitle", VInt 2024) ]) ].

(** *** Notions for the statements about failures *)

Definition is_dict (v : value) : bool :=
  match v with VDict _ => true | _ => false end.

(** Whether a path has a directory part at all. *)
Definition has_slash (p : string) : bool :=
  existsb (fun c => (c =? "/")%char) (list_ascii_of_string p).

End DocsReadme.

(** ** generate_lint_report.py *)

Module LintReport.

(** *** The world the script runs in *)

(** A request the script sends out: the chat completion, and the calls of
    the source-hosting client that go over the network. *)
Inductive call : Type :=
| ChatCompletion (model : string) (messages : list (string * string))
| GetRepo (full_name : string)
| GetPull (number : Z)
| CreateIssueComment (body : string).

(** The environment variables, the findings file ([None] when [open] or
    [read] raises: the file is missing, unreadable or not decodable) and
    the answer of each service.  [chat_completion] gives the
    message contents of the choices returned ([None] for a message without
    content); [pr_number] is [int(PR_NUMBER)], which raises when the
    variable is unset or is no integer literal. *)
Record env : Type := {
  OPENAI_API_KEY : option string;
  GITHUB_TOKEN : option string;
  REPO_NAME : option string;
  pr_number : result Z;
  lint_output_txt : option string;
  chat_completion : string -> list (string * string)
                    -> result (list (option string));
  token_accepted : bool;
  get_repo_ok : bool;
  get_pull_ok : bool;
  create_issue_comment_ok : bool
}.

(** A run: the requests sent, the lines printed, the exit status. *)
Record outcome : Type := {
  calls : list call;
  printed : list string;
  status : Z
}.

(** Requests with their results, in program order. *)
Definition io (A : Type) : Type := list call * result A.

Definition pure {A : Type} (r : result A) : io A := ([], r).

Definition request {A : Type} (c : call) (answer : result A) : io A :=
  ([c], answer).

Definition io_bind {A B : Type} (m : io A) (k : A -> io B) : io B :=
  match m with
  | (sent, Ok a) => let (sent', r) := k a in (extend sent sent', r)
  | (sent, Raise e) => (sent, Raise e)
  end.

Notation "x <~ m ;; k" := (io_bind m (fun x => k))
  (at level 61, m at next level, right associativity).

Definition check (ok : bool) : result unit :=
  if ok then Ok tt else Raise ServiceError.

(** *** The script *)

Definition no_findings_message : string :=
  "Nenhum problema de lint encontrado. Nenhum comentário será criado.".

(** The f-string of the prompt, as the text before and the text after the
    [{lint_output}] field. *)
Definition prompt_head : string :=
  String.concat nl
   [ "";
    "Você é um engenheiro de software sênior revisando um pull request. O CI executou golangci-lint e identificou os seguintes problemas de qualidade de código Go. ";
    "";
    "Para cada problema, gere um comentário técnico claro e objetivo, explicando:";
    "";
    "* **🔍 Descrição:** O que está errado e por que é importante corrigir";
    "* **📍 Localização:** Arquivo e linha onde o problema ocorre";
    "* **🛠️ Solução:** Como corrigir, incluindo exemplos de código quando relevante";
    "* **⚡ Prioridade:** Alta/Média/Baixa baseada no impacto";
    "";
    "**Problemas encontrados pelo golangci-lint:**";
    "```";
    "" ].

Definition prompt_tail : string :=
  String.concat nl
   [ "";
    "```";
    "";
    "Formate sua resposta como uma lista numerada em markdown, agrupando problemas similares quando possível. Seja conciso mas informativo.";
    "" ].

Definition prompt (lint_output : string) : string :=
  prompt_head ++ lint_output ++ prompt_tail.

Definition comment_heading : string :=
  "### 🔍 Problemas de Lint encontrados pelo CI".

Definition suggestions_title : string := "**💡 Sugestões:**".

Definition suggestions : list string :=
   [ "- Corrija os problemas apontados para garantir a qualidade e padronização do código.";
    "- Execute `make lint` localmente para validar antes de subir novas alterações.";
    "- Use `make lint-fix` para corrigir automaticamente alguns problemas de formatação." ].

Definition comment_body (detailed_report : string) : string :=
  comment_heading ++ nl ++ nl ++ detailed_report ++ nl ++ nl
  ++ suggestions_title ++ nl ++ nl ++ String.concat nl suggestions.

(** [response.choices[0].message.content.strip()] *)
Definition first_content (choices : list (option string)) : result string :=
  match choices with
  | [] => Raise IndexError
  | None :: _ => Raise AttributeError
  | Some content :: _ => Ok (strip content)
  end.

(** Everything after the early exit. *)
Definition report (e : env) (lint_output : string) : io unit :=
  let messages := [("system", prompt lint_output)] in
  response <~ request (ChatCompletion "gpt-4o-mini" messages)
                      (chat_completion e "gpt-4o-mini" messages) ;;
  detailed_report <~ pure (first_content response) ;;
  _ <~ pure (check (token_accepted e)) ;;
  full_name <~ pure (match REPO_NAME e with
                     | Some name => Ok name
                     | None => Raise TypeError
                     end) ;;
  _ <~ request (GetRepo full_name) (check (get_repo_ok e)) ;;
  number <~ pure (pr_number e) ;;
  _ <~ request (GetPull number) (check (get_pull_ok e)) ;;
  request (CreateIssueComment (comment_body detailed_report))
          (check (create_issue_comment_ok e)).

(** The whole script.  An exception nobody catches ends the process with
    status 1; [exit(0)] and running off the end give status 0. *)
Definition run (e : env) : outcome :=
  match lint_output_txt e with
  | None => {| calls := []; printed := []; status := 1 |}
  | Some content =>
      let lint_output := strip content in
      if negb (truthy (VStr lint_output)) then
        {| calls := []; printed := [no_findings_message]; status := 0 |}
      else
        match report e lint_output with
        | (sent, Ok _) => {| calls := sent; printed := []; status := 0 |}
        | (sent, Raise _) => {| calls := sent; printed := []; status := 1 |}
        end
  end.

(** *** Counting requests *)

Definition is_completion (c : call) : bool :=
  match c with ChatCompletion _ _ => true | _ => false end.

Definition is_comment (c : call) : bool :=
  match c with CreateIssueComment _ => true | _ => false end.

(** *** Sample inputs *)

Definition sample_findings : string :=
  "main.go:12:2: ineffectual assignment to err (ineffassign)".

Definition sample_reply : string := "1. Handle the error returned on line 12.".

(** An environment in which every service answers. *)
Definition sample_env (file : option string) : env :=
  {| OPENAI_API_KEY := Some "key";
     GITHUB_TOKEN := Some "token";
     REPO_NAME := Some "RodolfoBonis/deco";
     pr_number := Ok 7%Z;
     lint_output_txt := file;
     chat_completion := fun _ _ => Ok [ Some (" " ++ sample_reply ++ nl) ];
     token_accepted := true;
     get_repo_ok := true;
     get_pull_ok := true;
     create_issue_comment_ok := true |}.

(** An environment whose completion service answers without content. *)
Definition mute_env : env :=
  {| OPENAI_API_KEY := Some "key";
     GITHUB_TOKEN := Some "token";
     REPO_NAME := Some "RodolfoBonis/deco";
     pr_number := Ok 7%Z;
     lint_output_txt := Some sample_findings;
     chat_completion := fun _ _ => Ok [ None ];
     token_accepted := true;
     get_repo_ok := true;
     get_pull_ok := true;
     create_issue_comment_ok := true |}.

(** The requests of a run in the order of the script: the completion, the
    repository, the pull request, the comment, each at most once and none
    without the ones before it. *)
Definition in_program_order (sent : list call) : bool :=
  match sent with
  | [] => true
  | [ ChatCompletion _ _ ] => true
  | [ ChatCompletion _ _; GetRepo _ ] => true
  | [ ChatCompletion _ _; GetRepo _; GetPull _ ] => true
  | [ ChatCompletion _ _; GetRepo _; GetPull _; CreateIssueComment _ ] => true
  | _ => false
  end.

End LintReport.

(** * Properties of generate_docs_readme.py *)

Module DocsReadmeFacts.

Import DocsReadme.

(** ** Text *)

Lemma append_assoc (a b c : string) : (a ++ b) ++ c = a ++ b ++ c.
Proof.
  induction a as [| x a IH]; simpl; [reflexivity | rewrite IH; reflexivity].
Qed.

(** ** Joining lines *)

Lemma join_texts (sep : string) (ls : list string) :
  join sep (map VStr ls) = Ok (String.concat sep ls).
Proof.
  induction ls as [| l ls IH]; [reflexivity |].
  destruct ls as [| l' ls]; [reflexivity |].
  change (join sep (map VStr (l :: l' :: ls)))
    with (t <- join sep (map VStr (l' :: ls)) ;; Ok (l ++ sep ++ t)).
  rewrite IH. reflexivity.
Qed.

Lemma join_returns (sep : string) (items : list value) (text : string) :
  join sep items = Ok text ->
  exists ls, items = map VStr ls /\ text = String.concat sep ls.
Proof.
  revert text. induction items as [| v items IH]; intros text E.
  - exists []. simpl in E. injection E as <-. split; reflexivity.
  - destruct v; try discriminate E.
    destruct items as [| v' items].
    + simpl in E. injection E as <-. exists [s]. split; reflexivity.
    + change (join sep (VStr s :: v' :: items))
        with (t <- join sep (v' :: items) ;; Ok (s ++ sep ++ t)) in E.
      destruct (join sep (v' :: items)) as [t |] eqn:J; [| discriminate E].
      simpl in E. injection E as <-.
      destruct (IH t eq_refl) as (ls & Hitems & Ht).
      exists (s :: ls). split.
      * simpl. rewrite Hitems. reflexivity.
      * destruct ls as [| l ls]; [discriminate Hitems |].
        rewrite Ht. reflexivity.
Qed.

Section Renderers.

Context `{Repr}.

(** ** The loops against the specification's bullets *)

Lemma sections_loop_step (lines : list value) (entry : dict)
  (rest : list value) :
  sections_loop lines (VDict entry :: rest)
  = sections_loop
      (if section_complete entry
       then append lines (VStr (section_bullet entry))
       else lines)
      rest.
Proof.
  cbn [sections_loop get bind]. fold (filled "title" entry).
  fold (filled "file" entry) (filled "description" entry).
  fold (text_of "title" entry) (text_of "file" entry)
       (text_of "description" entry).
  unfold section_complete, section_bullet.
  destruct (filled "title" entry && filled "file" entry); [| reflexivity].
  destruct (filled "description" entry).
  - rewrite !append_assoc. reflexivity.
  - reflexivity.
Qed.

Lemma sections_loop_bullets (entries : list dict) :
  forall lines,
    sections_loop lines (map VDict entries)
    = Ok (lines ++ map VStr (section_bullets entries))%list.
Proof.
  induction entries as [| entry entries IH]; intros lines.
  - simpl. rewrite app_nil_r. reflexivity.
  - change (map VDict (entry :: entries))
      with (VDict entry :: map VDict entries).
    rewrite sections_loop_step, IH.
    unfold section_bullets. cbn [filter].
    destruct (section_complete entry); [| reflexivity].
    unfold append. cbn [map]. rewrite <- app_assoc. reflexivity.
Qed.

Lemma quick_links_loop_step (lines : list value) (entry : dict)
  (rest : list value) :
  quick_links_loop lines (VDict entry :: rest)
  = quick_links_loop
      (if link_complete entry
       then append lines (VStr (link_bullet entry))
       else lines)
      rest.
Proof. reflexivity. Qed.

Lemma quick_links_loop_bullets (entries : list dict) :
  forall lines,
    quick_links_loop lines (map VDict entries)
    = Ok (lines ++ map VStr (link_bullets entries))%list.
Proof.
  induction entries as [| entry entries IH]; intros lines.
  - simpl. rewrite app_nil_r. reflexivity.
  - change (map VDict (entry :: entries))
      with (VDict entry :: map VDict entries).
    rewrite quick_links_loop_step, IH.
    unfold link_bullets. cbn [filter].
    destruct (link_complete entry); [| reflexivity].
    unfold append. cbn [map]. rewrite <- app_assoc. reflexivity.
Qed.

Lemma section_bullets_app (pre post : list dict) :
  section_bullets (pre ++ post)
  = (section_bullets pre ++ section_bullets post)%list.
Proof.
  unfold section_bullets. rewrite filter_app, map_app. reflexivity.
Qed.

(** ** The header *)

Lemma generate_header_with_image (cfg header styling image : dict) :
  dict_get cfg "header" (VDict []) = VDict header ->
  dict_get cfg "styling" (VDict []) = VDict styling ->
  truthy (dict_get styling "show_image" (VBool true)) = true ->
  dict_get header "image" (VDict []) = VDict image ->
  image <> [] ->
  generate_header (VDict cfg)
  = Ok (title_lines header ++ map VStr (image_block image)
        ++ subtitle_lines header)%list.
Proof.
  intros Hh Hs Hshow Hi Hne.
  unfold generate_header. cbn [get bind].
  rewrite Hh, Hs. cbn [get bind]. rewrite Hshow. cbn [get bind].
  rewrite Hi. destruct image as [| kv image]; [contradiction |].
  cbn [truthy get bind].
  unfold image_block, caption_lines, subtitle_lines, filled, text_of.
  destruct (truthy (dict_get (kv :: image) "caption" (VStr "")));
    destruct (truthy (dict_get header "subtitle" (VStr "")));
    reflexivity.
Qed.

Lemma generate_header_without_image (cfg header styling : dict) :
  dict_get cfg "header" (VDict []) = VDict header ->
  dict_get cfg "styling" (VDict []) = VDict styling ->
  truthy (dict_get styling "show_image" (VBool true))
  && truthy (dict_get header "image" (VDict [])) = false ->
  generate_header (VDict cfg)
  = Ok (title_lines header ++ subtitle_lines header)%list.
Proof.
  intros Hh Hs Hoff.
  unfold generate_header. cbn [get bind].
  rewrite Hh, Hs. cbn [get bind].
  unfold subtitle_lines, filled.
  destruct (truthy (dict_get styling "show_image" (VBool true))).
  - cbn [andb] in Hoff. cbn [get bind]. rewrite Hoff. cbn [get bind].
    destruct (truthy (dict_get header "subtitle" (VStr "")));
      reflexivity.
  - cbn [get bind].
    destruct (truthy (dict_get header "subtitle" (VStr "")));
      reflexivity.
Qed.

Lemma generate_header_returns (config : value) (lines : list value) :
  generate_header config = Ok lines ->
  exists cfg header rest,
    config = VDict cfg
    /\ dict_get cfg "header" (VDict []) = VDict header
    /\ lines = (title_lines header ++ rest)%list.
Proof.
  intros E. destruct config as [| | | | | cfg]; try discriminate E.
  unfold generate_header in E. cbn [get bind] in E.
  destruct (dict_get cfg "header" (VDict [])) as [| | | | | header] eqn:Hh;
    try discriminate E.
  exists cfg, header.
  destruct (dict_get cfg "styling" (VDict [])) as [| | | | | styling];
    try discriminate E.
  cbn [get bind] in E.
  destruct (truthy (dict_get styling "show_image" (VBool true))).
  - cbn [get bind] in E.
    destruct (dict_get header "image" (VDict [])) as [| b | n | t | l | image];
      cbn [truthy] in E;
      try (destruct b); try (destruct (negb _)); try (destruct l);
      try (destruct image); cbn [get bind] in E; try discriminate E;
      repeat match type of E with
        | context [if ?c then _ else _] => destruct c
        end;
      injection E as <-; eexists;
      (split; [reflexivity | split; [exact Hh | reflexivity]]).
  - cbn [get bind] in E.
    destruct (truthy (dict_get header "subtitle" (VStr "")));
      injection E as <-; eexists;
      (split; [reflexivity | split; [exact Hh | reflexivity]]).
Qed.

(** ** The whole document *)

Lemma render_returns (config : value) (lines : list value) :
  render config = Ok lines ->
  exists header sections quick_links,
    generate_header config = Ok header
    /\ generate_sections config = Ok sections
    /\ generate_quick_links config = Ok quick_links
    /\ lines = (header ++ sections ++ quick_links)%list.
Proof.
  unfold render. intros E.
  destruct (generate_header config) as [h |]; [| discriminate E].
  destruct (generate_sections config) as [s |]; [| discriminate E].
  destruct (generate_quick_links config) as [q |]; [| discriminate E].
  exists h, s, q. cbn [bind] in E. injection E as <-.
  unfold extend. rewrite app_assoc. repeat split; reflexivity.
Qed.

Lemma render_blocks (config : value) (header sections quick_links : list value) :
  generate_header config = Ok header ->
  generate_sections config = Ok sections ->
  generate_quick_links config = Ok quick_links ->
  render config = Ok (header ++ sections ++ quick_links)%list.
Proof.
  intros Hh Hs Hq. unfold render. rewrite Hh, Hs, Hq. cbn [bind].
  unfold extend. rewrite app_assoc. reflexivity.
Qed.

Lemma file_write_generate_readme (d : disk) (config : value)
  (output_path p text : string) :
  In (FileWrite p text) (fst (generate_readme d config output_path)) ->
  p = output_path
  /\ exists lines, render config = Ok lines /\ join nl lines = Ok text.
Proof.
  unfold generate_readme, write_lines.
  destruct (render config) as [lines |] eqn:R; [| intros []].
  destruct (dirname output_path =? ""); [simpl; intuition discriminate |].
  destruct (makedirs_ok d); [| simpl; intuition discriminate].
  destruct (open_ok d); [| simpl; intuition discriminate].
  destruct (join nl lines) as [text' |] eqn:J;
    [| simpl; intuition discriminate].
  destruct (write_ok d); simpl; intros Hin.
  - destruct Hin as [Hin | [Hin | [Hin | [Hin | []]]]]; try discriminate Hin.
    injection Hin as <- <-. split; [reflexivity |].
    exists lines. split; [reflexivity | exact J].
  - destruct Hin as [Hin | [Hin | [Hin | []]]]; discriminate Hin.
Qed.

Lemma file_write_main (w : world) (p text : string) :
  In (FileWrite p text) (fst (main w)) ->
  exists config lines,
    files w "docs.yaml" = Document config
    /\ render config = Ok lines /\ join nl lines = Ok text.
Proof.
  unfold main, load_config.
  destruct (files w "docs.yaml") as [| | | config];
    try (simpl; intuition discriminate).
  destruct (negb (truthy config)); [intros [] |].
  destruct (generate_readme (storage w) config "docs/README.md")
    as [evs r] eqn:G.
  assert (Hevs : In (FileWrite p text) evs ->
                 exists lines, render config = Ok lines
                               /\ join nl lines = Ok text).
  { intros Hin.
    apply (file_write_generate_readme (storage w) config "docs/README.md" p).
    rewrite G. exact Hin. }
  intros Hin. exists config.
  assert (Hin' : In (FileWrite p text) evs).
  { destruct r as [[|] | e]; cbn [negb fst extend append app] in Hin.
    - apply in_app_or in Hin. destruct Hin as [Hin | [Hin | []]];
        [exact Hin | discriminate Hin].
    - exact Hin.
    - exact Hin. }
  destruct (Hevs Hin') as (lines & Hr & Hj).
  exists lines. repeat split; assumption.
Qed.

Lemma generate_sections_bullets (cfg : dict) (entries : list dict) :
  dict_get cfg "sections" (VList []) = VList (map VDict entries) ->
  generate_sections (VDict cfg)
  = Ok (match entries with
        | [] => []
        | _ :: _ =>
            VStr sections_heading :: VStr ""
            :: map VStr (section_bullets entries) ++ [VStr ""]
        end)%list.
Proof.
  intros Hs. unfold generate_sections. cbn [get bind]. rewrite Hs.
  destruct entries as [| entry entries]; [reflexivity |].
  cbn [map truthy iter bind]. unfold append. cbn [app].
  change (VDict entry :: map VDict entries)
    with (map VDict (entry :: entries)).
  rewrite sections_loop_bullets. reflexivity.
Qed.

(** ** The claims about the renderers and the writer *)

(** C4 (as amended).  The header renderer emits the image block exactly when
    [styling.show_image] is true (true when absent) and the header's
    [image] entry is a mapping that is not empty; the block uses the
    fallback values ./images/deco_gopher.png, Go Gopher Artist, 200 and 200
    for a missing src, alt, width and height, and has the italic caption
    line only when a caption that is not empty is given.  With
    [show_image] false, or with an [image] entry that is absent or empty,
    the header has no image block. *)
Theorem header_image_block (cfg header styling : dict) :
  dict_get cfg "header" (VDict []) = VDict header ->
  dict_get cfg "styling" (VDict []) = VDict styling ->
  (forall image,
      truthy (dict_get styling "show_image" (VBool true)) = true ->
      dict_get header "image" (VDict []) = VDict image ->
      image <> [] ->
      generate_header (VDict cfg)
      = Ok (title_lines header ++ map VStr (image_block image)
            ++ subtitle_lines header)%list)
  /\ (truthy (dict_get styling "show_image" (VBool true))
      && truthy (dict_get header "image" (VDict [])) = false ->
      generate_header (VDict cfg)
      = Ok (title_lines header ++ subtitle_lines header)%list).
Proof.
  intros Hh Hs. split.
  - intros image Hshow Hi Hne.
    apply (generate_header_with_image cfg header styling image);
      assumption.
  - intros Hoff.
    apply (generate_header_without_image cfg header styling); assumption.
Qed.

(** C5.  For every sections list the sections renderer emits, under the
    heading, one bullet [- [title](./file) - description] per entry (without
    the [ - description] suffix when the description is empty), skipping
    every entry that misses its title or its file (the field is absent or
    empty), and keeping the other entries in their source order; an entry
    without a title or without a file leaves the bullets of the entries
    before and after it as they are. *)
Theorem sections_bullets_in_order (cfg : dict) (entries : list dict) :
  dict_get cfg "sections" (VList []) = VList (map VDict entries) ->
  generate_sections (VDict cfg)
  = Ok (match entries with
        | [] => []
        | _ :: _ =>
            VStr sections_heading :: VStr ""
            :: map VStr (section_bullets entries) ++ [VStr ""]
        end)%list
  /\ (forall pre entry post,
        entries = (pre ++ entry :: post)%list ->
        lookup "title" entry = None \/ lookup "file" entry = None ->
        section_bullets entries
        = (section_bullets pre ++ section_bullets post)%list).
Proof.
  intros Hs. split.
  - apply generate_sections_bullets. exact Hs.
  - intros pre entry post -> Hmiss.
    rewrite section_bullets_app. f_equal.
    unfold section_bullets. cbn [filter].
    replace (section_complete entry) with false; [reflexivity |].
    unfold section_complete, filled, dict_get.
    destruct Hmiss as [-> | ->]; cbn [truthy String.eqb negb];
      [reflexivity | rewrite andb_false_r; reflexivity].
Qed.

(** C6.  When [sections] and [quick_links] are both empty lists or absent,
    neither renderer emits anything, so the document is the header alone
    and has neither level-2 heading; and a renderer that emits its heading
    was given a list that is not empty. *)
Theorem no_heading_without_entries (cfg : dict) :
  dict_get cfg "sections" (VList []) = VList [] ->
  dict_get cfg "quick_links" (VList []) = VList [] ->
  generate_sections (VDict cfg) = Ok []
  /\ generate_quick_links (VDict cfg) = Ok []
  /\ render (VDict cfg) = generate_header (VDict cfg)
  /\ (forall config lines,
        generate_sections config = Ok lines ->
        In (VStr sections_heading) lines ->
        exists cfg', config = VDict cfg'
          /\ truthy (dict_get cfg' "sections" (VList [])) = true)
  /\ (forall config lines,
        generate_quick_links config = Ok lines ->
        In (VStr quick_links_heading) lines ->
        exists cfg', config = VDict cfg'
          /\ truthy (dict_get cfg' "quick_links" (VList [])) = true).
Proof.
  intros Hs Hq.
  assert (Es : generate_sections (VDict cfg) = Ok []).
  { unfold generate_sections. cbn [get bind]. rewrite Hs. reflexivity. }
  assert (Eq : generate_quick_links (VDict cfg) = Ok []).
  { unfold generate_quick_links. cbn [get bind]. rewrite Hq. reflexivity. }
  repeat split; try assumption.
  - unfold render. rewrite Es, Eq.
    destruct (generate_header (VDict cfg)) as [h |]; [| reflexivity].
    cbn [bind]. unfold extend. cbn [app]. rewrite !app_nil_r. reflexivity.
  - intros config lines E Hin.
    destruct config as [| | | | | cfg']; try discriminate E.
    exists cfg'. split; [reflexivity |].
    unfold generate_sections in E. cbn [get bind] in E.
    destruct (truthy (dict_get cfg' "sections" (VList [])));
      [reflexivity |].
    injection E as <-. destruct Hin.
  - intros config lines E Hin.
    destruct config as [| | | | | cfg']; try discriminate E.
    exists cfg'. split; [reflexivity |].
    unfold generate_quick_links in E. cbn [get bind] in E.
    destruct (truthy (dict_get cfg' "quick_links" (VList [])));
      [reflexivity |].
    injection E as <-. destruct Hin.
Qed.

(** C7.  The README that is written is the three rendered blocks in the
    order header, sections, quick links, joined line by line with single
    newlines: every text the writer puts into a file is that text, at the
    output path, and on a disk where every step goes through the writer
    does put it there. *)
Theorem readme_is_joined_blocks (d : disk) (config : value)
  (output_path : string) (header sections quick_links : list value) :
  generate_header config = Ok header ->
  generate_sections config = Ok sections ->
  generate_quick_links config = Ok quick_links ->
  (forall p text,
      In (FileWrite p text) (fst (generate_readme d config output_path)) ->
      p = output_path
      /\ exists ls,
          (header ++ sections ++ quick_links)%list = map VStr ls
          /\ text = String.concat nl ls)
  /\ (forall ls,
        (header ++ sections ++ quick_links)%list = map VStr ls ->
        healthy d = true ->
        dirname output_path <> "" ->
        generate_readme d config output_path
        = ([ Makedirs (dirname output_path);
             OpenTruncate output_path;
             FileWrite output_path (String.concat nl ls);
             Stdout (Generated output_path) ],
           Ok true)).
Proof.
  intros Hh Hs Hq.
  pose proof (render_blocks config header sections quick_links Hh Hs Hq)
    as Hr.
  split.
  - intros p text Hin.
    apply file_write_generate_readme in Hin.
    destruct Hin as (-> & lines & Hr' & Hj). split; [reflexivity |].
    rewrite Hr in Hr'. injection Hr' as <-.
    apply join_returns. exact Hj.
  - intros ls Hls Hd Hdir.
    unfold generate_readme, write_lines. rewrite Hr, Hls, join_texts.
    apply String.eqb_neq in Hdir. rewrite Hdir.
    unfold healthy in Hd.
    apply andb_prop in Hd. destruct Hd as [Hd Hw].
    apply andb_prop in Hd. destruct Hd as [Hm Ho].
    rewrite Hm, Ho, Hw. reflexivity.
Qed.

(** ** Documents of the data model *)

Lemma optional_mapping (k : string) (p : dict -> bool) (d : dict) :
  optional k (is_mapping p) d = true ->
  p [] = true ->
  exists m, dict_get d k (VDict []) = VDict m /\ p m = true.
Proof.
  unfold optional, dict_get. intros Hopt Hnil.
  destruct (lookup k d) as [[| | | | | m] |]; try discriminate Hopt.
  - exists m. split; [reflexivity | exact Hopt].
  - exists []. split; [reflexivity | exact Hnil].
Qed.

Lemma mappings_are_dicts (p : dict -> bool) (items : list value) :
  forallb (is_mapping p) items = true ->
  exists entries, items = map VDict entries.
Proof.
  induction items as [| v items IH]; intros Hall.
  - exists []. reflexivity.
  - cbn [forallb] in Hall. apply andb_prop in Hall.
    destruct Hall as [Hv Hall].
    destruct v as [| | | | | m]; try discriminate Hv.
    destruct (IH Hall) as (entries & ->).
    exists (m :: entries). reflexivity.
Qed.

Lemma optional_sequence (k : string) (p : dict -> bool) (d : dict) :
  optional k (is_sequence (is_mapping p)) d = true ->
  exists entries, dict_get d k (VList []) = VList (map VDict entries).
Proof.
  unfold optional, dict_get. intros Hopt.
  destruct (lookup k d) as [[| | | | items |] |]; try discriminate Hopt.
  - destruct (mappings_are_dicts p items Hopt) as (entries & ->).
    exists entries. reflexivity.
  - exists []. reflexivity.
Qed.

Lemma optional_text (k : string) (d : dict) (default : string) :
  optional k is_text d = true ->
  exists s, dict_get d k (VStr default) = VStr s.
Proof.
  unfold optional, dict_get. intros Hopt.
  destruct (lookup k d) as [[| | | s | |] |]; try discriminate Hopt.
  - exists s. reflexivity.
  - exists default. reflexivity.
Qed.

Lemma generate_quick_links_bullets (cfg : dict) (entries : list dict) :
  dict_get cfg "quick_links" (VList []) = VList (map VDict entries) ->
  generate_quick_links (VDict cfg)
  = Ok (match entries with
        | [] => []
        | _ :: _ =>
            VStr quick_links_heading :: VStr ""
            :: map VStr (link_bullets entries) ++ [VStr ""]
        end)%list.
Proof.
  intros Hq. unfold generate_quick_links. cbn [get bind]. rewrite Hq.
  destruct entries as [| entry entries]; [reflexivity |].
  cbn [map truthy iter bind]. unfold append. cbn [app].
  change (VDict entry :: map VDict entries)
    with (map VDict (entry :: entries)).
  rewrite quick_links_loop_bullets. reflexivity.
Qed.

Lemma valid_header_texts (cfg : dict) :
  valid_document cfg = true ->
  exists ls, generate_header (VDict cfg) = Ok (map VStr ls).
Proof.
  unfold valid_document. intros Hdoc.
  apply andb_prop in Hdoc. destruct Hdoc as [Hdoc _].
  apply andb_prop in Hdoc. destruct Hdoc as [Hdoc _].
  apply andb_prop in Hdoc. destruct Hdoc as [Hh Hs].
  destruct (optional_mapping _ _ _ Hh eq_refl) as (header & Eh & Vh).
  destruct (optional_mapping _ _ _ Hs eq_refl) as (styling & Es & _).
  unfold valid_header in Vh.
  apply andb_prop in Vh. destruct Vh as [Vh Vsub].
  apply andb_prop in Vh. destruct Vh as [_ Vimg].
  destruct (optional_mapping _ _ _ Vimg eq_refl) as (image & Ei & _).
  destruct (optional_text _ _ "" Vsub) as (sub & Esub).
  assert (Hsubtitle : exists ss, subtitle_lines header = map VStr ss).
  { unfold subtitle_lines. rewrite Esub.
    destruct (filled "subtitle" header);
      [exists [sub; ""] | exists []]; reflexivity. }
  destruct Hsubtitle as (ss & Ess).
  destruct (truthy (dict_get styling "show_image" (VBool true))) eqn:Hshow.
  - destruct image as [| kv image].
    + rewrite (generate_header_without_image cfg header styling Eh Es)
        by (rewrite Hshow, Ei; reflexivity).
      rewrite Ess. eexists (_ :: _ :: ss). reflexivity.
    + rewrite (generate_header_with_image cfg header styling (kv :: image)
                 Eh Es Hshow Ei) by discriminate.
      rewrite Ess.
      eexists (_ :: _ :: image_block (kv :: image) ++ ss)%list.
      unfold title_lines. cbn [app map]. rewrite map_app. reflexivity.
  - rewrite (generate_header_without_image cfg header styling Eh Es)
      by (rewrite Hshow; reflexivity).
    rewrite Ess. eexists (_ :: _ :: ss). reflexivity.
Qed.

(** A document of the data model renders, and to lines of text. *)
Lemma valid_config_renders (config : value) :
  valid_config config = true ->
  exists ls, render config = Ok (map VStr ls).
Proof.
  destruct config as [| | | | | cfg]; try discriminate.
  cbn [valid_config is_mapping]. intros Hdoc.
  destruct (valid_header_texts cfg Hdoc) as (hs & Eh).
  unfold valid_document in Hdoc.
  apply andb_prop in Hdoc. destruct Hdoc as [Hdoc Hq].
  apply andb_prop in Hdoc. destruct Hdoc as [_ Hs].
  destruct (optional_sequence _ _ _ Hs) as (sections & Es).
  destruct (optional_sequence _ _ _ Hq) as (links & Eq).
  pose proof (generate_sections_bullets cfg sections Es) as Gs.
  pose proof (generate_quick_links_bullets cfg links Eq) as Gq.
  rewrite (render_blocks _ _ _ _ Eh Gs Gq).
  exists (hs
          ++ match sections with
             | [] => []
             | _ :: _ => sections_heading :: "" :: section_bullets sections ++ [""]
             end
          ++ match links with
             | [] => []
             | _ :: _ => quick_links_heading :: "" :: link_bullets links ++ [""]
             end)%list.
  rewrite !map_app. destruct sections; destruct links; cbn [map];
    rewrite ?map_app; reflexivity.
Qed.

(** X2.  For a document of the data model that is not the empty mapping,
    on a disk where every step goes through, the script writes the rendered
    text and ends with status 0. *)
Theorem valid_config_generates (w : world) (config : value) :
  files w "docs.yaml" = Document config ->
  valid_config config = true ->
  truthy config = true ->
  healthy (storage w) = true ->
  exists ls,
    render config = Ok (map VStr ls)
    /\ main w
       = ([ Makedirs "docs";
            OpenTruncate "docs/README.md";
            FileWrite "docs/README.md" (String.concat nl ls);
            Stdout (Generated "docs/README.md");
            Stdout AllDone ],
          0%Z).
Proof.
  intros Hfile Hvalid Htrue Hd.
  destruct (valid_config_renders config Hvalid) as (ls & Hr).
  exists ls. split; [exact Hr |].
  unfold healthy in Hd.
  apply andb_prop in Hd. destruct Hd as [Hd Hw].
  apply andb_prop in Hd. destruct Hd as [Hm Ho].
  unfold main, load_config. rewrite Hfile, Htrue. cbn [negb].
  unfold generate_readme, write_lines. rewrite Hr, join_texts.
  change (dirname "docs/README.md") with "docs".
  cbn [String.eqb Ascii.eqb Bool.eqb]. rewrite Hm, Ho, Hw. reflexivity.
Qed.

(** ** The claims about a run of the script *)

(** C8.  When the configuration file does not exist, or its content is not
    valid YAML, the generator prints the error, ends with status 1 and does
    nothing else: no directory is made and no file is opened or written. *)
Theorem load_failure_no_output (w : world) :
  (files w "docs.yaml" = Missing ->
   main w = ([ Stdout (ConfigNotFound "docs.yaml") ], 1%Z))
  /\ (files w "docs.yaml" = Malformed ->
      main w = ([ Stdout (ConfigParseError "docs.yaml") ], 1%Z)).
Proof.
  split; intros E; unfold main, load_config; rewrite E; reflexivity.
Qed.

(** C1, at the empty mapping.  A [docs.yaml] holding the empty mapping makes
    the script end with status 1, having printed and written nothing,
    although [generate_readme] renders that very configuration to the
    default heading and writes it. *)
Theorem empty_mapping_rejected (w : world) :
  files w "docs.yaml" = Document (VDict []) ->
  main w = ([], 1%Z)
  /\ (healthy (storage w) = true ->
      generate_readme (storage w) (VDict []) "docs/README.md"
      = ([ Makedirs "docs";
           OpenTruncate "docs/README.md";
           FileWrite "docs/README.md" ("# Documentation" ++ nl);
           Stdout (Generated "docs/README.md") ],
         Ok true)).
Proof.
  intros E. split.
  - unfold main, load_config. rewrite E. reflexivity.
  - intros Hd. unfold healthy in Hd.
    apply andb_prop in Hd. destruct Hd as [Hd Hw].
    apply andb_prop in Hd. destruct Hd as [Hm Ho].
    unfold generate_readme, write_lines.
    change (render (VDict [])) with (Ok [VStr "# Documentation"; VStr ""]).
    change (dirname "docs/README.md") with "docs".
    cbn [String.eqb Ascii.eqb Bool.eqb]. rewrite Hm, Ho, Hw. reflexivity.
Qed.

End Renderers.

(** ** The theorems at the sample inputs *)

Lemma header_image_block_witness :
  @generate_header plain_repr (VDict sample_cfg)
  = Ok (@title_lines plain_repr sample_header
        ++ map VStr (@image_block plain_repr sample_image)
        ++ subtitle_lines sample_header)%list.
Proof.
  apply (proj1 (@header_image_block plain_repr sample_cfg sample_header
                  sample_styling eq_refl eq_refl));
    [reflexivity | reflexivity | discriminate].
Defined.

(** The claim C4 as first stated fails at a header whose [image] entry is
    the empty mapping: the entry exists and [show_image] is on by default,
    yet the header has the title lines only. *)
Lemma header_empty_image_entry :
  lookup "image" [ ("image", VDict []) ] = Some (VDict [])
  /\ lookup "styling" [ ("header", VDict [ ("image", VDict []) ]) ] = None
  /\ @generate_header plain_repr
       (VDict [ ("header", VDict [ ("image", VDict []) ]) ])
     = Ok [ VStr "# Documentation"; VStr "" ].
Proof. repeat split. Qed.

Lemma sections_bullets_in_order_witness :
  dict_get sample_cfg "sections" (VList []) = VList (map VDict sample_sections)
  /\ @generate_sections plain_repr (VDict sample_cfg)
     = Ok [ VStr sections_heading; VStr "";
            VStr "- [Usage](./usage.md) - How to use it";
            VStr "- [API](./api.md)";
            VStr "" ].
Proof.
  split; [reflexivity |].
  apply (proj1 (@sections_bullets_in_order plain_repr sample_cfg
                  sample_sections eq_refl)).
Defined.

Lemma no_heading_without_entries_witness :
  @render plain_repr (VDict [ ("sections", VList []) ])
  = @generate_header plain_repr (VDict [ ("sections", VList []) ]).
Proof.
  apply (@no_heading_without_entries plain_repr [ ("sections", VList []) ]
           eq_refl eq_refl).
Defined.

Lemma readme_is_joined_blocks_witness :
  @generate_readme plain_repr sound_disk (VDict sample_cfg) "docs/README.md"
  = ([ Makedirs "docs";
       OpenTruncate "docs/README.md";
       FileWrite "docs/README.md" sample_readme;
       Stdout (Generated "docs/README.md") ],
     Ok true).
Proof.
  apply (proj2 (@readme_is_joined_blocks plain_repr sound_disk
                  (VDict sample_cfg) "docs/README.md" _ _ _
                  eq_refl eq_refl eq_refl)
           [ "# Deco"; "";
             "<div align=" ++ dq ++ "center" ++ dq ++ ">";
             @image_tag plain_repr sample_image;
             "  <br>"; "  <em>The mascot</em>"; "</div>"; "";
             "Decorators for Go"; "";
             sections_heading; "";
             "- [Usage](./usage.md) - How to use it";
             "- [API](./api.md)"; "";
             quick_links_heading; "";
             "- [Home](https://example.org)"; "" ]);
    [reflexivity | reflexivity | discriminate].
Defined.

Lemma load_failure_no_output_witness :
  @main plain_repr (world_with Missing sound_disk)
  = ([ Stdout (ConfigNotFound "docs.yaml") ], 1%Z)
  /\ @main plain_repr (world_with Malformed sound_disk)
     = ([ Stdout (ConfigParseError "docs.yaml") ], 1%Z).
Proof.
  split.
  - apply (proj1 (@load_failure_no_output plain_repr
                    (world_with Missing sound_disk))).
    reflexivity.
  - apply (proj2 (@load_failure_no_output plain_repr
                    (world_with Malformed sound_disk))).
    reflexivity.
Defined.

Lemma valid_config_generates_witness :
  exists ls,
    @render plain_repr (VDict sample_cfg) = Ok (map VStr ls)
    /\ @main plain_repr (world_with (Document (VDict sample_cfg)) sound_disk)
       = ([ Makedirs "docs";
            OpenTruncate "docs/README.md";
            FileWrite "docs/README.md" (String.concat nl ls);
            Stdout (Generated "docs/README.md");
            Stdout AllDone ],
          0%Z).
Proof.
  apply (@valid_config_generates plain_repr
           (world_with (Document (VDict sample_cfg)) sound_disk)
           (VDict sample_cfg));
    reflexivity.
Defined.

(** ** Runs that end badly *)

(** A subtitle that is not text fails the [join] after the file was opened
    for writing: the error is reported and the file is left empty. *)
Example subtitle_not_text :
  @main plain_repr
    (world_with (Document (VDict [ ("header", VDict [ ("subtitle", VInt 5) ]) ]))
       sound_disk)
  = ([ Makedirs "docs"; OpenTruncate "docs/README.md";
       Stdout (WriteFailed "docs/README.md") ],
     1%Z).
Proof. reflexivity. Qed.

Example write_fails :
  @main plain_repr (world_with (Document (VDict sample_cfg)) full_disk)
  = ([ Makedirs "docs"; OpenTruncate "docs/README.md";
       Stdout (WriteFailed "docs/README.md") ],
     1%Z).
Proof. reflexivity. Qed.

(** A header that is not a mapping raises out of [generate_header], which
    nobody catches. *)
Example header_not_a_mapping :
  @main plain_repr (world_with (Document (VDict [ ("header", VNone) ])) sound_disk)
  = ([], 1%Z).
Proof. reflexivity. Qed.

(** An output path without a directory part fails at [os.makedirs]. *)
Example no_directory_part :
  @generate_readme plain_repr sound_disk (VDict sample_cfg) "README.md"
  = ([ Stdout (WriteFailed "README.md") ], Ok false).
Proof. reflexivity. Qed.

Lemma empty_mapping_rejected_witness :
  @main plain_repr (world_with (Document (VDict [])) sound_disk) = ([], 1%Z).
Proof.
  apply (proj1 (@empty_mapping_rejected plain_repr
                  (world_with (Document (VDict [])) sound_disk) eq_refl)).
Defined.

End DocsReadmeFacts.

(** * Properties of generate_lint_report.py *)

Module LintReportFacts.

Import LintReport.

(** C2.  When the findings file is empty once trimmed, the bot sends no
    request at all (no completion request, no call to the source-hosting
    service), prints its notice and ends with status 0. *)
Theorem no_findings_no_calls (e : env) (content : string) :
  lint_output_txt e = Some content ->
  strip content = "" ->
  run e = {| calls := []; printed := [ no_findings_message ]; status := 0 |}.
Proof.
  intros Hfile Hempty. unfold run. rewrite Hfile, Hempty. reflexivity.
Qed.

Lemma no_findings_no_calls_witness :
  strip (" " ++ nl ++ nl) = ""
  /\ run (sample_env (Some (" " ++ nl ++ nl)))
     = {| calls := []; printed := [ no_findings_message ]; status := 0 |}.
Proof.
  split; [reflexivity |].
  apply (no_findings_no_calls (sample_env (Some (" " ++ nl ++ nl)))
           (" " ++ nl ++ nl) eq_refl eq_refl).
Defined.

(** C3.  When the findings file is not empty once trimmed, the bot sends
    exactly one completion request, whose single system message is the
    prompt with the findings text embedded as it is, and at most one
    comment; when the completion service answers and the repository and
    the pull request are found, it creates exactly one comment, whose body
    is the fixed heading, the trimmed answer of the model, and the three
    fixed suggestion bullets. *)
Theorem findings_one_request_one_comment (e : env) (content : string) :
  lint_output_txt e = Some content ->
  strip content <> "" ->
  let messages := [ ("system", prompt_head ++ strip content ++ prompt_tail) ] in
  let completion := ChatCompletion "gpt-4o-mini" messages in
  filter is_completion (calls (run e)) = [ completion ]
  /\ length (filter is_comment (calls (run e))) <= 1
  /\ length suggestions = 3
  /\ (forall reply others full_name number,
        chat_completion e "gpt-4o-mini" messages = Ok (Some reply :: others) ->
        token_accepted e = true ->
        REPO_NAME e = Some full_name ->
        get_repo_ok e = true ->
        pr_number e = Ok number ->
        get_pull_ok e = true ->
        calls (run e)
        = [ completion;
            GetRepo full_name;
            GetPull number;
            CreateIssueComment
              (comment_heading ++ nl ++ nl ++ strip reply ++ nl ++ nl
               ++ suggestions_title ++ nl ++ nl
               ++ String.concat nl suggestions) ]
        /\ status (run e) = if create_issue_comment_ok e then 0%Z else 1%Z).
Proof.
  intros Hfile Hfound messages completion.
  assert (Hrun : run e
                 = match report e (strip content) with
                   | (sent, Ok _) =>
                       {| calls := sent; printed := []; status := 0 |}
                   | (sent, Raise _) =>
                       {| calls := sent; printed := []; status := 1 |}
                   end).
  { unfold run. rewrite Hfile. cbn [truthy].
    apply String.eqb_neq in Hfound. rewrite Hfound. reflexivity. }
  rewrite Hrun. unfold report, prompt. fold messages. fold completion.
  split; [| split; [| split; [reflexivity |]]].
  - destruct (chat_completion e "gpt-4o-mini" messages)
      as [[| [reply |] others] | ex];
      destruct (token_accepted e); destruct (REPO_NAME e);
      destruct (get_repo_ok e); destruct (pr_number e);
      destruct (get_pull_ok e); destruct (create_issue_comment_ok e);
      reflexivity.
  - destruct (chat_completion e "gpt-4o-mini" messages)
      as [[| [reply |] others] | ex];
      destruct (token_accepted e); destruct (REPO_NAME e);
      destruct (get_repo_ok e); destruct (pr_number e);
      destruct (get_pull_ok e); destruct (create_issue_comment_ok e);
      cbn; lia.
  - intros reply others full_name number Hchat Htoken Hname Hrepo Hnum Hpull.
    rewrite Hchat, Htoken, Hname, Hrepo, Hnum, Hpull.
    destruct (create_issue_comment_ok e); split; reflexivity.
Qed.

Lemma findings_one_request_one_comment_witness :
  strip (sample_findings ++ nl) = sample_findings
  /\ filter is_completion
       (calls (run (sample_env (Some (sample_findings ++ nl)))))
     = [ ChatCompletion "gpt-4o-mini"
           [ ("system", prompt_head ++ sample_findings ++ prompt_tail) ] ].
Proof.
  split; [reflexivity |].
  apply (proj1 (findings_one_request_one_comment
                  (sample_env (Some (sample_findings ++ nl)))
                  (sample_findings ++ nl) eq_refl
                  ltac:(discriminate))).
Defined.

(** The whole run at the sample environment. *)
Example sample_run :
  run (sample_env (Some (sample_findings ++ nl)))
  = {| calls :=
         [ ChatCompletion "gpt-4o-mini"
             [ ("system", prompt_head ++ sample_findings ++ prompt_tail) ];
           GetRepo "RodolfoBonis/deco";
           GetPull 7;
           CreateIssueComment
             (comment_heading ++ nl ++ nl ++ sample_reply ++ nl ++ nl
              ++ suggestions_title ++ nl ++ nl
              ++ String.concat nl suggestions) ];
       printed := [];
       status := 0 |}.
Proof. reflexivity. Qed.

(** [strip] removes the whitespace of either end, ASCII or not, and
    nothing inside. *)
Example strip_ascii :
  strip (" " ++ nl ++ "a b" ++ nl ++ nl) = "a b".
Proof. reflexivity. Qed.

Example strip_no_break_space :
  strip (String "194"%char (String "160"%char "x")) = "x".
Proof. reflexivity. Qed.

Example strip_ideographic_space :
  strip ("x" ++ String "227"%char (String "128"%char (String "128"%char "")))
  = "x".
Proof. reflexivity. Qed.

Example strip_keeps_other_bytes :
  strip (String "195"%char (String "160"%char "")) 
  = String "195"%char (String "160"%char "").
Proof. reflexivity. Qed.

End LintReportFacts.

(** * Further properties of generate_docs_readme.py *)

Module DocsReadmeBehaviour.

Import DocsReadme DocsReadmeFacts.

Section Behaviour.

Context `{Repr}.

(** ** When the list renderers return *)

Lemma sections_loop_not_dict (lines : list value) (v : value)
  (rest : list value) :
  is_dict v = false ->
  sections_loop lines (v :: rest) = Raise AttributeError.
Proof. destruct v; intros E; try discriminate E; reflexivity. Qed.

Lemma quick_links_loop_not_dict (lines : list value) (v : value)
  (rest : list value) :
  is_dict v = false ->
  quick_links_loop lines (v :: rest) = Raise AttributeError.
Proof. destruct v; intros E; try discriminate E; reflexivity. Qed.

Lemma sections_loop_returns (items : list value) :
  forall lines out,
    sections_loop lines items = Ok out ->
    exists entries, items = map VDict entries.
Proof.
  induction items as [| v items IH]; intros lines out E.
  - exists []. reflexivity.
  - destruct (is_dict v) eqn:D.
    + destruct v as [| | | | | entry]; try discriminate D.
      rewrite sections_loop_step in E.
      destruct (IH _ _ E) as (entries & ->).
      exists (entry :: entries). reflexivity.
    + rewrite sections_loop_not_dict in E by exact D. discriminate E.
Qed.

Lemma quick_links_loop_returns (items : list value) :
  forall lines out,
    quick_links_loop lines items = Ok out ->
    exists entries, items = map VDict entries.
Proof.
  induction items as [| v items IH]; intros lines out E.
  - exists []. reflexivity.
  - destruct (is_dict v) eqn:D.
    + destruct v as [| | | | | entry]; try discriminate D.
      rewrite quick_links_loop_step in E.
      destruct (IH _ _ E) as (entries & ->).
      exists (entry :: entries). reflexivity.
    + rewrite quick_links_loop_not_dict in E by exact D. discriminate E.
Qed.

(** What [iter] gives for a truthy object is a list of dicts only when the
    object is a list of dicts. *)
Lemma iter_dicts (v : value) (entries : list dict) :
  truthy v = true ->
  iter v = Ok (map VDict entries) ->
  v = VList (map VDict entries).
Proof.
  destruct v as [| b | n | s | items | kvs]; cbn [iter truthy];
    intros T E; try discriminate E.
  - destruct s as [| c s]; [discriminate T |].
    cbn [chars] in E. destruct entries; discriminate E.
  - injection E as ->. reflexivity.
  - destruct kvs as [| kv kvs]; [discriminate T |].
    cbn [map] in E. destruct entries; discriminate E.
Qed.

Lemma generate_sections_returns (config : value) (lines : list value) :
  generate_sections config = Ok lines ->
  exists cfg,
    config = VDict cfg
    /\ ((truthy (dict_get cfg "sections" (VList [])) = false /\ lines = [])
        \/ exists entry entries,
            dict_get cfg "sections" (VList [])
            = VList (map VDict (entry :: entries))
            /\ lines
               = (VStr sections_heading :: VStr ""
                  :: map VStr (section_bullets (entry :: entries))
                  ++ [VStr ""])%list).
Proof.
  intros E. destruct config as [| | | | | cfg]; try discriminate E.
  exists cfg. split; [reflexivity |].
  unfold generate_sections in E. cbn [get bind] in E.
  destruct (truthy (dict_get cfg "sections" (VList []))) eqn:T.
  - right.
    destruct (iter (dict_get cfg "sections" (VList []))) as [items |] eqn:I;
      [| discriminate E].
    cbn [bind] in E.
    destruct (sections_loop _ items) as [out |] eqn:L; [| discriminate E].
    destruct (sections_loop_returns _ _ _ L) as (entries & ->).
    pose proof (iter_dicts _ _ T I) as Hs.
    rewrite sections_loop_bullets in L. injection L as <-.
    cbn [bind] in E. injection E as <-.
    destruct entries as [| entry entries];
      [rewrite Hs in T; discriminate T |].
    exists entry, entries. split; [exact Hs | reflexivity].
  - left. injection E as <-. split; reflexivity.
Qed.

Lemma generate_quick_links_returns (config : value) (lines : list value) :
  generate_quick_links config = Ok lines ->
  exists cfg,
    config = VDict cfg
    /\ ((truthy (dict_get cfg "quick_links" (VList [])) = false /\ lines = [])
        \/ exists entry entries,
            dict_get cfg "quick_links" (VList [])
            = VList (map VDict (entry :: entries))
            /\ lines
               = (VStr quick_links_heading :: VStr ""
                  :: map VStr (link_bullets (entry :: entries))
                  ++ [VStr ""])%list).
Proof.
  intros E. destruct config as [| | | | | cfg]; try discriminate E.
  exists cfg. split; [reflexivity |].
  unfold generate_quick_links in E. cbn [get bind] in E.
  destruct (truthy (dict_get cfg "quick_links" (VList []))) eqn:T.
  - right.
    destruct (iter (dict_get cfg "quick_links" (VList []))) as [items |] eqn:I;
      [| discriminate E].
    cbn [bind] in E.
    destruct (quick_links_loop _ items) as [out |] eqn:L; [| discriminate E].
    destruct (quick_links_loop_returns _ _ _ L) as (entries & ->).
    pose proof (iter_dicts _ _ T I) as Hs.
    rewrite quick_links_loop_bullets in L. injection L as <-.
    cbn [bind] in E. injection E as <-.
    destruct entries as [| entry entries];
      [rewrite Hs in T; discriminate T |].
    exists entry, entries. split; [exact Hs | reflexivity].
  - left. injection E as <-. split; reflexivity.
Qed.

(** ** When the header renderer returns *)

Lemma generate_header_bad_image (cfg header styling : dict) (v : value) :
  dict_get cfg "header" (VDict []) = VDict header ->
  dict_get cfg "styling" (VDict []) = VDict styling ->
  truthy (dict_get styling "show_image" (VBool true)) = true ->
  dict_get header "image" (VDict []) = v ->
  truthy v = true ->
  is_dict v = false ->
  generate_header (VDict cfg) = Raise AttributeError.
Proof.
  intros Hh Hs Hshow Hi T D.
  unfold generate_header. cbn [get bind].
  rewrite Hh, Hs. cbn [get bind]. rewrite Hshow. cbn [get bind].
  rewrite Hi, T.
  destruct v; try discriminate D; reflexivity.
Qed.

Lemma generate_header_shape (config : value) (lines : list value) :
  generate_header config = Ok lines ->
  exists cfg header styling,
    config = VDict cfg
    /\ dict_get cfg "header" (VDict []) = VDict header
    /\ dict_get cfg "styling" (VDict []) = VDict styling
    /\ ((truthy (dict_get styling "show_image" (VBool true))
         && truthy (dict_get header "image" (VDict [])) = false
         /\ lines = (title_lines header ++ subtitle_lines header)%list)
        \/ exists image,
            truthy (dict_get styling "show_image" (VBool true)) = true
            /\ dict_get header "image" (VDict []) = VDict image
            /\ image <> []
            /\ lines
               = (title_lines header ++ map VStr (image_block image)
                  ++ subtitle_lines header)%list).
Proof.
  intros E. destruct config as [| | | | | cfg]; try discriminate E.
  destruct (dict_get cfg "header" (VDict [])) as [| | | | | header] eqn:Hh;
    try (unfold generate_header in E; cbn [get bind] in E;
         rewrite Hh in E; discriminate E).
  destruct (dict_get cfg "styling" (VDict [])) as [| | | | | styling] eqn:Hs;
    try (unfold generate_header in E; cbn [get bind] in E;
         rewrite Hh, Hs in E; discriminate E).
  exists cfg, header, styling.
  split; [reflexivity | split; [exact Hh | split; [exact Hs |]]].
  destruct (truthy (dict_get styling "show_image" (VBool true))
            && truthy (dict_get header "image" (VDict []))) eqn:B.
  - right. apply andb_prop in B. destruct B as [Hshow Himg].
    destruct (is_dict (dict_get header "image" (VDict []))) eqn:D.
    + destruct (dict_get header "image" (VDict [])) as [| | | | | image]
        eqn:Hi; try discriminate D.
      exists image.
      assert (Hne : image <> []) by (intros ->; discriminate Himg).
      rewrite (generate_header_with_image cfg header styling image
                 Hh Hs Hshow Hi Hne) in E.
      injection E as <-. repeat split; try assumption.
    + rewrite (generate_header_bad_image cfg header styling _
                 Hh Hs Hshow eq_refl Himg D) in E.
      discriminate E.
  - left.
    rewrite (generate_header_without_image cfg header styling Hh Hs B) in E.
    injection E as <-. split; reflexivity.
Qed.

(** ** Text lines and lines that are not text *)

Lemma join_not_text (sep : string) (pre : list value) (v : value)
  (post : list value) :
  is_text v = false ->
  join sep (pre ++ v :: post) = Raise TypeError.
Proof.
  intros T. induction pre as [| x pre IH].
  - destruct v; try discriminate T; reflexivity.
  - destruct x as [| | | s | |]; try reflexivity.
    cbn [app]. destruct (pre ++ v :: post)%list as [| y rest] eqn:R.
    + destruct pre; discriminate R.
    + change (join sep (VStr s :: y :: rest))
        with (t <- join sep (y :: rest) ;; Ok (s ++ sep ++ t)).
      rewrite IH. reflexivity.
Qed.

Lemma concat_blank_last (ls : list string) :
  ls <> [] ->
  String.concat nl (ls ++ [""]) = String.concat nl ls ++ nl.
Proof.
  induction ls as [| a ls IH]; intros Hne; [contradiction |].
  destruct ls as [| b ls]; [reflexivity |].
  change (String.concat nl ((a :: b :: ls) ++ [""]))
    with (a ++ nl ++ String.concat nl ((b :: ls) ++ [""])).
  rewrite IH by discriminate.
  change (String.concat nl (a :: b :: ls))
    with (a ++ nl ++ String.concat nl (b :: ls)).
  rewrite !append_assoc. reflexivity.
Qed.

(** The header block is text up to the subtitle, which comes last. *)
Lemma generate_header_texts (config : value) (lines : list value) :
  generate_header config = Ok lines ->
  exists cfg header first ls,
    config = VDict cfg
    /\ dict_get cfg "header" (VDict []) = VDict header
    /\ lines
       = (map VStr (first :: ls ++ [""]) ++ subtitle_lines header)%list.
Proof.
  intros E. apply generate_header_shape in E.
  destruct E as (cfg & header & styling & -> & Hh & _ & [[_ ->] | Himg]).
  - exists cfg, header, ("# " ++ str (dict_get header "title"
                                        (VStr "Documentation"))), [].
    repeat split; assumption.
  - destruct Himg as (image & _ & _ & _ & ->).
    exists cfg, header, ("# " ++ str (dict_get header "title"
                                        (VStr "Documentation"))),
      ("" :: div_open :: image_tag image :: "  <br>"
       :: caption_lines image ++ ["</div>"])%list.
    split; [reflexivity | split; [exact Hh |]].
    unfold title_lines, image_block. cbn [app map].
    rewrite <- !app_assoc. cbn [app]. rewrite !map_app. cbn [map app].
    rewrite <- !app_assoc. reflexivity.
Qed.

Lemma subtitle_lines_texts (header : dict) :
  truthy (dict_get header "subtitle" (VStr ""))
  && negb (is_text (dict_get header "subtitle" (VStr ""))) = false ->
  exists ls, subtitle_lines header = map VStr ls
             /\ (ls = [] \/ exists s, ls = [s; ""]).
Proof.
  unfold subtitle_lines, filled. intros B.
  destruct (truthy (dict_get header "subtitle" (VStr ""))).
  - destruct (dict_get header "subtitle" (VStr "")) as [| | | s | |];
      try discriminate B.
    exists [s; ""]. split; [reflexivity | right; exists s; reflexivity].
  - exists []. split; [reflexivity | left; reflexivity].
Qed.

Lemma generate_sections_texts (config : value) (lines : list value) :
  generate_sections config = Ok lines ->
  exists ls, lines = map VStr ls /\ (ls = [] \/ exists ls', ls = ls' ++ [""])%list.
Proof.
  intros E. apply generate_sections_returns in E.
  destruct E as (cfg & _ & [[_ ->] | (entry & entries & _ & ->)]).
  - exists []. split; [reflexivity | left; reflexivity].
  - exists (sections_heading :: ""
            :: section_bullets (entry :: entries) ++ [""])%list.
    split.
    + cbn [map]. rewrite map_app. reflexivity.
    + right. exists (sections_heading :: ""
                     :: section_bullets (entry :: entries)).
      reflexivity.
Qed.

Lemma generate_quick_links_texts (config : value) (lines : list value) :
  generate_quick_links config = Ok lines ->
  exists ls, lines = map VStr ls /\ (ls = [] \/ exists ls', ls = ls' ++ [""])%list.
Proof.
  intros E. apply generate_quick_links_returns in E.
  destruct E as (cfg & _ & [[_ ->] | (entry & entries & _ & ->)]).
  - exists []. split; [reflexivity | left; reflexivity].
  - exists (quick_links_heading :: ""
            :: link_bullets (entry :: entries) ++ [""])%list.
    split.
    + cbn [map]. rewrite map_app. reflexivity.
    + right. exists (quick_links_heading :: ""
                     :: link_bullets (entry :: entries)).
      reflexivity.
Qed.

(** ** Paths *)

Lemma existsb_rev {A : Type} (f : A -> bool) (l : list A) :
  existsb f (rev l) = existsb f l.
Proof.
  induction l as [| x l IH]; [reflexivity |].
  cbn [rev existsb]. rewrite existsb_app, IH. cbn [existsb].
  rewrite orb_false_r. apply orb_comm.
Qed.

Lemma drop_to_slash_none (l : list ascii) :
  existsb (fun c => (c =? "/")%char) l = false ->
  drop_to_slash l = [].
Proof.
  induction l as [| c l IH]; [reflexivity |].
  cbn [existsb drop_to_slash]. intros E.
  apply orb_false_elim in E. destruct E as [Ec El].
  rewrite Ec. exact (IH El).
Qed.

Lemma dirname_no_slash (p : string) :
  has_slash p = false -> dirname p = "".
Proof.
  unfold has_slash, dirname. intros E.
  rewrite drop_to_slash_none by (rewrite existsb_rev; exact E).
  reflexivity.
Qed.

(** ** Statements *)

(** X1.  For every quick-links list the renderer emits, under its heading,
    one bullet [- [title](url)] per entry that has a title and a url, in
    the order of the entries; an entry without a title or without a url
    leaves the bullets of the entries before and after it as they are. *)
Theorem quick_links_bullets_in_order (cfg : dict) (entries : list dict) :
  dict_get cfg "quick_links" (VList []) = VList (map VDict entries) ->
  generate_quick_links (VDict cfg)
  = Ok (match entries with
        | [] => []
        | _ :: _ =>
            VStr quick_links_heading :: VStr ""
            :: map VStr (link_bullets entries) ++ [VStr ""]
        end)%list
  /\ (forall pre entry post,
        entries = (pre ++ entry :: post)%list ->
        lookup "title" entry = None \/ lookup "url" entry = None ->
        link_bullets entries
        = (link_bullets pre ++ link_bullets post)%list).
Proof.
  intros Hq. split.
  - apply generate_quick_links_bullets. exact Hq.
  - intros pre entry post -> Hmiss.
    unfold link_bullets. rewrite filter_app, map_app. f_equal.
    cbn [filter].
    replace (link_complete entry) with false; [reflexivity |].
    unfold link_complete, filled, dict_get.
    destruct Hmiss as [-> | ->]; cbn [truthy String.eqb negb];
      [reflexivity | rewrite andb_false_r; reflexivity].
Qed.

(** X3.  The sections renderer returns exactly when the [sections] value is
    falsy or a list of mappings, and the quick-links renderer likewise; on
    a configuration that is not a mapping both raise. *)
Theorem list_renderers_return_iff (cfg : dict) :
  ((exists lines, generate_sections (VDict cfg) = Ok lines)
   <-> truthy (dict_get cfg "sections" (VList [])) = false
       \/ exists entries,
           dict_get cfg "sections" (VList []) = VList (map VDict entries))
  /\ ((exists lines, generate_quick_links (VDict cfg) = Ok lines)
      <-> truthy (dict_get cfg "quick_links" (VList [])) = false
          \/ exists entries,
              dict_get cfg "quick_links" (VList [])
              = VList (map VDict entries))
  /\ (forall config,
        is_dict config = false ->
        generate_sections config = Raise AttributeError
        /\ generate_quick_links config = Raise AttributeError).
Proof.
  split; [| split].
  - split.
    + intros (lines & E). apply generate_sections_returns in E.
      destruct E as (cfg' & Hc & [[T _] | (entry & entries & Hs & _)]);
        injection Hc as <-.
      * left. exact T.
      * right. exists (entry :: entries). exact Hs.
    + intros [T | (entries & Hs)].
      * exists []. unfold generate_sections. cbn [get bind].
        rewrite T. reflexivity.
      * eexists. apply generate_sections_bullets. exact Hs.
  - split.
    + intros (lines & E). apply generate_quick_links_returns in E.
      destruct E as (cfg' & Hc & [[T _] | (entry & entries & Hs & _)]);
        injection Hc as <-.
      * left. exact T.
      * right. exists (entry :: entries). exact Hs.
    + intros [T | (entries & Hs)].
      * exists []. unfold generate_quick_links. cbn [get bind].
        rewrite T. reflexivity.
      * eexists. apply generate_quick_links_bullets. exact Hs.
  - intros config D.
    destruct config; try discriminate D; split; reflexivity.
Qed.

(** X4.  Whatever the types of the fields of the entries, the lines the
    sections renderer and the quick-links renderer return are all text. *)
Theorem list_renderers_return_text (config : value) (lines : list value) :
  generate_sections config = Ok lines
  \/ generate_quick_links config = Ok lines ->
  exists ls, lines = map VStr ls.
Proof.
  intros [E | E].
  - destruct (generate_sections_texts config lines E) as (ls & -> & _).
    exists ls. reflexivity.
  - destruct (generate_quick_links_texts config lines E) as (ls & -> & _).
    exists ls. reflexivity.
Qed.

(** X5.  The header renderer returns exactly when [header] and [styling]
    are mappings (or absent) and the [image] entry, if it is looked at, is
    a mapping: that is, when [show_image] is falsy, or the [image] entry is
    falsy, or it is a dict. *)
Theorem header_returns_iff (cfg : dict) :
  (exists lines, generate_header (VDict cfg) = Ok lines)
  <-> exists header styling,
      dict_get cfg "header" (VDict []) = VDict header
      /\ dict_get cfg "styling" (VDict []) = VDict styling
      /\ (truthy (dict_get styling "show_image" (VBool true))
          && truthy (dict_get header "image" (VDict [])) = false
          \/ is_dict (dict_get header "image" (VDict [])) = true).
Proof.
  split.
  - intros (lines & E). apply generate_header_shape in E.
    destruct E as (cfg' & header & styling & Hc & Hh & Hs & Hcase).
    injection Hc as <-. exists header, styling.
    split; [exact Hh | split; [exact Hs |]].
    destruct Hcase as [[B _] | (image & _ & Hi & _)].
    + left. exact B.
    + right. rewrite Hi. reflexivity.
  - intros (header & styling & Hh & Hs & Hcase).
    destruct (truthy (dict_get styling "show_image" (VBool true))
              && truthy (dict_get header "image" (VDict []))) eqn:B.
    + destruct Hcase as [F | D]; [discriminate F |].
      apply andb_prop in B. destruct B as [Hshow Himg].
      destruct (dict_get header "image" (VDict [])) as [| | | | | image]
        eqn:Hi; try discriminate D.
      eexists.
      apply (generate_header_with_image cfg header styling image);
        try assumption.
      intros ->. discriminate Himg.
    + eexists.
      apply (generate_header_without_image cfg header styling);
        assumption.
Qed.

(** ** The first line *)

Lemma written_text_starts_with_title (d : disk) (config : value)
  (output_path p text : string) :
  In (FileWrite p text) (fst (generate_readme d config output_path)) ->
  exists cfg header tail,
    config = VDict cfg
    /\ dict_get cfg "header" (VDict []) = VDict header
    /\ text
       = "# " ++ str (dict_get header "title" (VStr "Documentation"))
         ++ nl ++ tail.
Proof.
  intros Hin. apply file_write_generate_readme in Hin.
  destruct Hin as (_ & lines & Hr & Hj).
  apply render_returns in Hr.
  destruct Hr as (h & s & q & Hh & _ & _ & ->).
  apply generate_header_returns in Hh.
  destruct Hh as (cfg & header & rest & -> & Hh & ->).
  exists cfg, header.
  unfold title_lines in Hj. cbn [app] in Hj.
  set (more := (rest ++ s ++ q)%list) in Hj.
  change (join nl (VStr ("# " ++ str (dict_get header "title"
                                        (VStr "Documentation")))
                   :: VStr "" :: more))
    with (t <- join nl (VStr "" :: more) ;;
          Ok (("# " ++ str (dict_get header "title" (VStr "Documentation")))
              ++ nl ++ t)) in Hj.
  destruct (join nl (VStr "" :: more)) as [t |]; [| discriminate Hj].
  cbn [bind] in Hj. injection Hj as <-.
  exists t. split; [reflexivity | split; [exact Hh | reflexivity]].
Qed.

Lemma text_subtitle_is_written (d : disk) (cfg header : dict)
  (output_path : string) (lines : list value) :
  dict_get cfg "header" (VDict []) = VDict header ->
  render (VDict cfg) = Ok lines ->
  truthy (dict_get header "subtitle" (VStr ""))
  && negb (is_text (dict_get header "subtitle" (VStr ""))) = false ->
  healthy d = true ->
  dirname output_path <> "" ->
  exists ls,
    generate_readme d (VDict cfg) output_path
    = ([ Makedirs (dirname output_path);
         OpenTruncate output_path;
         FileWrite output_path (String.concat nl ls);
         Stdout (Generated output_path) ],
       Ok true).
Proof.
  intros Hh Hr B Hd Hdir.
  unfold healthy in Hd.
  apply andb_prop in Hd. destruct Hd as [Hd Hw].
  apply andb_prop in Hd. destruct Hd as [Hm Ho].
  apply String.eqb_neq in Hdir.
  pose proof Hr as Hr'. apply render_returns in Hr'.
  destruct Hr' as (h & sec & q & Eh & Es & Eq & ->).
  apply generate_header_texts in Eh.
  destruct Eh as (cfg' & header' & first & hl & Hc & Hh' & ->).
  injection Hc as <-. rewrite Hh in Hh'. injection Hh' as <-.
  destruct (generate_sections_texts _ _ Es) as (sl & -> & _).
  destruct (generate_quick_links_texts _ _ Eq) as (ql & -> & _).
  destruct (subtitle_lines_texts header B) as (ul & Hu & _).
  exists ((first :: hl ++ [""]) ++ ul ++ sl ++ ql)%list.
  assert (Hlines : ((map VStr (first :: hl ++ [""]) ++ subtitle_lines header)
                    ++ map VStr sl ++ map VStr ql)%list
                   = map VStr ((first :: hl ++ [""]) ++ ul ++ sl ++ ql)%list).
  { rewrite Hu, !map_app, <- !app_assoc. reflexivity. }
  unfold generate_readme, write_lines. rewrite Hr, Hlines, join_texts.
  rewrite Hdir, Hm, Ho, Hw. reflexivity.
Qed.

(** C10 (as amended).  For every configuration on which the header renderer
    returns, the header block starts with the level-1 heading [# ] followed
    by the title ([Documentation] when the header has none) and a blank
    line, so it is never empty; every text the generator writes starts
    with that heading line, so no empty text is ever written; and when the
    three renderers return, the subtitle is absent, empty or text, and
    every step on the disk goes through, the output file is written with
    such a text. *)
Theorem first_line_is_title (config : value) :
  (forall lines,
      generate_header config = Ok lines ->
      exists cfg header rest,
        config = VDict cfg
        /\ dict_get cfg "header" (VDict []) = VDict header
        /\ lines
           = VStr ("# " ++ str (dict_get header "title" (VStr "Documentation")))
             :: VStr "" :: rest)
  /\ (forall d output_path p text,
        In (FileWrite p text) (fst (generate_readme d config output_path)) ->
        exists cfg header tail,
          config = VDict cfg
          /\ dict_get cfg "header" (VDict []) = VDict header
          /\ text
             = "# " ++ str (dict_get header "title" (VStr "Documentation"))
               ++ nl ++ tail)
  /\ (forall d output_path cfg header lines,
        config = VDict cfg ->
        dict_get cfg "header" (VDict []) = VDict header ->
        render config = Ok lines ->
        truthy (dict_get header "subtitle" (VStr ""))
        && negb (is_text (dict_get header "subtitle" (VStr ""))) = false ->
        healthy d = true ->
        dirname output_path <> "" ->
        exists tail,
          generate_readme d config output_path
          = ([ Makedirs (dirname output_path);
               OpenTruncate output_path;
               FileWrite output_path
                 ("# " ++ str (dict_get header "title" (VStr "Documentation"))
                  ++ nl ++ tail);
               Stdout (Generated output_path) ],
             Ok true)).
Proof.
  split; [| split].
  - intros lines E. apply generate_header_returns in E.
    destruct E as (cfg & header & rest & -> & Hh & ->).
    exists cfg, header, rest. repeat split; assumption.
  - intros d output_path p text.
    apply written_text_starts_with_title.
  - intros d output_path cfg header lines -> Hh Hr B Hd Hdir.
    destruct (text_subtitle_is_written d cfg header output_path lines
                Hh Hr B Hd Hdir) as (ls & G).
    assert (Hin : In (FileWrite output_path (String.concat nl ls))
                    (fst (generate_readme d (VDict cfg) output_path))).
    { rewrite G. cbn [fst In]. right. right. left. reflexivity. }
    apply written_text_starts_with_title in Hin.
    destruct Hin as (cfg' & header' & tail & Hc & Hh' & Htext).
    injection Hc as <-. rewrite Hh in Hh'. injection Hh' as <-.
    exists tail. rewrite G, Htext. reflexivity.
Qed.

(** X6.  When the renderers return, the write goes wrong on a sound disk
    for one reason only: a subtitle that is truthy and not text.  Then the
    [join] raises after the file was opened, so the README is left empty and
    [generate_readme] returns [False]; with any other subtitle every line
    is text and the README is written. *)
Theorem subtitle_decides_write (d : disk) (cfg header : dict)
  (output_path : string) (lines : list value) :
  dict_get cfg "header" (VDict []) = VDict header ->
  render (VDict cfg) = Ok lines ->
  healthy d = true ->
  dirname output_path <> "" ->
  (truthy (dict_get header "subtitle" (VStr ""))
   && negb (is_text (dict_get header "subtitle" (VStr ""))) = false ->
   exists ls,
     lines = map VStr ls
     /\ generate_readme d (VDict cfg) output_path
        = ([ Makedirs (dirname output_path);
             OpenTruncate output_path;
             FileWrite output_path (String.concat nl ls);
             Stdout (Generated output_path) ],
           Ok true))
  /\ (truthy (dict_get header "subtitle" (VStr ""))
      && negb (is_text (dict_get header "subtitle" (VStr ""))) = true ->
      generate_readme d (VDict cfg) output_path
      = ([ Makedirs (dirname output_path);
           OpenTruncate output_path;
           Stdout (WriteFailed output_path) ],
         Ok false)).
Proof.
  intros Hh Hr Hd Hdir.
  unfold healthy in Hd.
  apply andb_prop in Hd. destruct Hd as [Hd Hw].
  apply andb_prop in Hd. destruct Hd as [Hm Ho].
  apply String.eqb_neq in Hdir.
  pose proof Hr as Hr'. apply render_returns in Hr'.
  destruct Hr' as (h & sec & q & Eh & Es & Eq & ->).
  apply generate_header_texts in Eh.
  destruct Eh as (cfg' & header' & first & hl & Hc & Hh' & ->).
  injection Hc as <-. rewrite Hh in Hh'. injection Hh' as <-.
  destruct (generate_sections_texts _ _ Es) as (sl & -> & _).
  destruct (generate_quick_links_texts _ _ Eq) as (ql & -> & _).
  split.
  - intros B. destruct (subtitle_lines_texts header B) as (ul & Hu & _).
    exists ((first :: hl ++ [""]) ++ ul ++ sl ++ ql)%list.
    assert (Hlines : ((map VStr (first :: hl ++ [""]) ++ subtitle_lines header)
                      ++ map VStr sl ++ map VStr ql)%list
                     = map VStr ((first :: hl ++ [""]) ++ ul ++ sl ++ ql)%list).
    { rewrite Hu, !map_app, <- !app_assoc. reflexivity. }
    split; [exact Hlines |].
    unfold generate_readme, write_lines. rewrite Hr, Hlines, join_texts.
    rewrite Hdir, Hm, Ho, Hw. reflexivity.
  - intros B. apply andb_prop in B. destruct B as [T N].
    apply negb_true_iff in N.
    unfold generate_readme, write_lines. rewrite Hr.
    unfold subtitle_lines, filled. rewrite T.
    rewrite <- !app_assoc. cbn [app].
    rewrite join_not_text by exact N.
    rewrite Hdir, Hm, Ho. reflexivity.
Qed.

(** X7.  Every README the generator writes ends with a newline: each block
    the renderers return ends with a blank line. *)
Theorem readme_ends_with_newline (d : disk) (config : value)
  (output_path p text : string) :
  In (FileWrite p text) (fst (generate_readme d config output_path)) ->
  exists body, text = body ++ nl.
Proof.
  intros Hin. apply file_write_generate_readme in Hin.
  destruct Hin as (_ & lines & Hr & Hj).
  apply render_returns in Hr.
  destruct Hr as (h & sec & q & Eh & Es & Eq & ->).
  apply generate_header_texts in Eh.
  destruct Eh as (cfg & header & first & hl & _ & _ & ->).
  destruct (generate_sections_texts _ _ Es) as (sl & -> & Hsl).
  destruct (generate_quick_links_texts _ _ Eq) as (ql & -> & Hql).
  assert (Hend : exists front,
             ((map VStr (first :: hl ++ [""]) ++ subtitle_lines header)
              ++ map VStr sl ++ map VStr ql)%list
             = (front ++ [VStr ""])%list /\ front <> []).
  { set (A := map VStr (first :: hl ++ [""])).
    assert (HA : A <> []) by (unfold A; cbn [map]; discriminate).
    set (S := subtitle_lines header).
    destruct Hql as [-> | (ql' & ->)].
    - destruct Hsl as [-> | (sl' & ->)].
      + cbn [map]. rewrite !app_nil_r.
        unfold S, subtitle_lines.
        destruct (filled "subtitle" header).
        * exists (A ++ [dict_get header "subtitle" (VStr "")])%list.
          split; [rewrite <- app_assoc; reflexivity |].
          intros E. apply app_eq_nil in E. destruct E as [_ E].
          discriminate E.
        * exists (map VStr (first :: hl)). split.
          -- rewrite app_nil_r. unfold A. cbn [map].
             rewrite map_app. reflexivity.
          -- cbn [map]. discriminate.
      + exists ((A ++ S) ++ map VStr sl')%list.
        split.
        * rewrite (map_app VStr sl'). cbn [map].
          rewrite app_nil_r, <- !app_assoc. reflexivity.
        * intros E. apply app_eq_nil in E. destruct E as [E _].
          apply app_eq_nil in E. destruct E as [E _]. exact (HA E).
    - exists ((A ++ S) ++ map VStr sl ++ map VStr ql')%list.
      split.
      + rewrite (map_app VStr ql'). cbn [map].
        rewrite <- !app_assoc. reflexivity.
      + intros E. apply app_eq_nil in E. destruct E as [E _].
        apply app_eq_nil in E. destruct E as [E _]. exact (HA E). }
  destruct Hend as (front & Hfront & Hne). rewrite Hfront in Hj.
  apply join_returns in Hj. destruct Hj as (ls & Hls & ->).
  symmetry in Hls. apply map_eq_app in Hls.
  destruct Hls as (ls1 & ls2 & -> & Hf & Hlast).
  destruct ls2 as [| l2 [| l2' ls2]]; try discriminate Hlast.
  injection Hlast as ->.
  exists (String.concat nl ls1). apply concat_blank_last.
  intros ->. apply Hne. symmetry. exact Hf.
Qed.

(** X8.  An output path without a slash has no directory part, so
    [os.makedirs] is called on the empty name and raises: whatever the
    disk, [generate_readme] reports the failure, returns [False] and
    touches no file. *)
Theorem no_directory_part_fails (d : disk) (config : value)
  (output_path : string) (lines : list value) :
  has_slash output_path = false ->
  render config = Ok lines ->
  generate_readme d config output_path
  = ([ Stdout (WriteFailed output_path) ], Ok false).
Proof.
  intros Hs Hr. unfold generate_readme, write_lines.
  rewrite Hr, (dirname_no_slash _ Hs). reflexivity.
Qed.

(** ** The outcomes of generate_readme *)



End Behaviour.

(** ** The statements at the sample inputs *)

Lemma first_line_is_title_witness :
  exists tail,
    @generate_readme plain_repr sound_disk (VDict sample_cfg) "docs/README.md"
    = ([ Makedirs (dirname "docs/README.md");
         OpenTruncate "docs/README.md";
         FileWrite "docs/README.md"
           ("# " ++ @str plain_repr
                      (dict_get sample_header "title" (VStr "Documentation"))
            ++ nl ++ tail);
         Stdout (Generated "docs/README.md") ],
       Ok true).
Proof.
  eapply (proj2 (proj2 (@first_line_is_title plain_repr (VDict sample_cfg)))
            sound_disk "docs/README.md" sample_cfg sample_header
            _ eq_refl eq_refl);
    [vm_compute; reflexivity | reflexivity | reflexivity | discriminate].
Defined.

(** The claim C10 as first stated fails at a subtitle that YAML reads as a
    number: the three renderers return, the header block starts with the
    heading, and yet the run ends with docs/README.md opened for writing
    and nothing written into it. *)
Lemma numeric_subtitle_empties_readme :
  @generate_header plain_repr (VDict numeric_subtitle_cfg)
  = Ok [ VStr "# Deco"; VStr ""; VInt 2024; VStr "" ]
  /\ @generate_sections plain_repr (VDict numeric_subtitle_cfg) = Ok []
  /\ @generate_quick_links plain_repr (VDict numeric_subtitle_cfg) = Ok []
  /\ @main plain_repr
       (world_with (Document (VDict numeric_subtitle_cfg)) sound_disk)
     = ([ Makedirs "docs";
          OpenTruncate "docs/README.md";
          Stdout (WriteFailed "docs/README.md") ],
        1%Z).
Proof. repeat split. Qed.

Lemma quick_links_bullets_in_order_witness :
  dict_get sample_cfg "quick_links" (VList []) = VList (map VDict sample_links)
  /\ @generate_quick_links plain_repr (VDict sample_cfg)
     = Ok [ VStr quick_links_heading; VStr "";
            VStr "- [Home](https://example.org)"; VStr "" ].
Proof.
  split; [reflexivity |].
  apply (proj1 (@quick_links_bullets_in_order plain_repr sample_cfg
                  sample_links eq_refl)).
Defined.

Lemma list_renderers_return_iff_witness :
  exists lines, @generate_sections plain_repr (VDict sample_cfg) = Ok lines.
Proof.
  apply (proj2 (proj1 (@list_renderers_return_iff plain_repr sample_cfg))).
  right. exists sample_sections. reflexivity.
Defined.

Lemma list_renderers_return_text_witness :
  exists ls,
    [ VStr quick_links_heading; VStr "";
      VStr "- [Home](https://example.org)"; VStr "" ]
    = map VStr ls.
Proof.
  apply (@list_renderers_return_text plain_repr (VDict sample_cfg)).
  right. reflexivity.
Defined.

Lemma header_returns_iff_witness :
  exists lines, @generate_header plain_repr (VDict sample_cfg) = Ok lines.
Proof.
  apply (proj2 (@header_returns_iff plain_repr sample_cfg)).
  exists sample_header, sample_styling.
  split; [reflexivity | split; [reflexivity | right; reflexivity]].
Defined.

Lemma subtitle_decides_write_witness :
  @generate_readme plain_repr sound_disk (VDict numeric_subtitle_cfg)
    "docs/README.md"
  = ([ Makedirs "docs"; OpenTruncate "docs/README.md";
       Stdout (WriteFailed "docs/README.md") ],
     Ok false).
Proof.
  apply (proj2 (@subtitle_decides_write plain_repr sound_disk
                  numeric_subtitle_cfg
                  [ ("title", VStr "Deco"); ("subtitle", VInt 2024) ]
                  "docs/README.md"
                  [ VStr "# Deco"; VStr ""; VInt 2024; VStr "" ]
                  eq_refl eq_refl eq_refl ltac:(discriminate))).
  reflexivity.
Defined.

Lemma readme_ends_with_newline_witness :
  exists body, sample_readme = body ++ nl.
Proof.
  apply (@readme_ends_with_newline plain_repr sound_disk (VDict sample_cfg)
           "docs/README.md" "docs/README.md" sample_readme).
  vm_compute. auto.
Defined.

Lemma no_directory_part_fails_witness :
  has_slash "README.md" = false
  /\ @generate_readme plain_repr sound_disk (VDict sample_cfg) "README.md"
     = ([ Stdout (WriteFailed "README.md") ], Ok false).
Proof.
  split; [reflexivity |].
  eapply (@no_directory_part_fails plain_repr sound_disk (VDict sample_cfg)
            "README.md" _ eq_refl).
  vm_compute. reflexivity.
Defined.


End DocsReadmeBehaviour.

(** * Further properties of generate_lint_report.py *)

Module LintReportBehaviour.

Import LintReport.

Lemma run_with_findings (e : env) (content : string) :
  lint_output_txt e = Some content ->
  strip content <> "" ->
  run e
  = match report e (strip content) with
    | (sent, Ok _) => {| calls := sent; printed := []; status := 0 |}
    | (sent, Raise _) => {| calls := sent; printed := []; status := 1 |}
    end.
Proof.
  intros Hfile Hfound. unfold run. rewrite Hfile. cbn [truthy].
  apply String.eqb_neq in Hfound. rewrite Hfound. reflexivity.
Qed.

Lemma run_without_findings (e : env) :
  lint_output_txt e = None
  \/ (exists content, lint_output_txt e = Some content /\ strip content = "") ->
  calls (run e) = []
  /\ status (run e)
     = match lint_output_txt e with Some _ => 0%Z | None => 1%Z end.
Proof.
  unfold run. intros [E | (content & E & B)]; rewrite E.
  - split; reflexivity.
  - rewrite B. split; reflexivity.
Qed.

Ltac answers e messages :=
  destruct (chat_completion e "gpt-4o-mini" messages)
    as [[| [?reply |] ?others] | ?ex];
  destruct (token_accepted e); destruct (REPO_NAME e);
  destruct (get_repo_ok e); destruct (pr_number e);
  destruct (get_pull_ok e); destruct (create_issue_comment_ok e).

(** X10.  When the completion service gives no first answer with content
    (the call raises, returns no choice, or a message without content),
    the bot stops there with status 1: the completion request is the only
    request of the run and the source-hosting service is never called. *)
Theorem completion_failure_stops (e : env) (content : string) :
  lint_output_txt e = Some content ->
  strip content <> "" ->
  (forall reply others,
      chat_completion e "gpt-4o-mini" [ ("system", prompt (strip content)) ]
      <> Ok (Some reply :: others)) ->
  run e
  = {| calls := [ ChatCompletion "gpt-4o-mini"
                    [ ("system", prompt (strip content)) ] ];
       printed := [];
       status := 1 |}.
Proof.
  intros Hfile Hfound Hno.
  rewrite (run_with_findings e content Hfile Hfound). unfold report.
  destruct (chat_completion e "gpt-4o-mini"
              [ ("system", prompt (strip content)) ])
    as [[| [reply |] others] | ex] eqn:C; try reflexivity.
  exfalso. exact (Hno reply others eq_refl).
Qed.

(** X11.  In every run the requests go out in the order of the script, the
    completion, the repository, the pull request, the comment, each at
    most once and none without the ones before it: no comment is created
    without a completion and without the repository and the pull request
    having been looked up. *)
Theorem calls_in_program_order (e : env) :
  in_program_order (calls (run e)) = true.
Proof.
  unfold run. destruct (lint_output_txt e) as [content |]; [| reflexivity].
  destruct (negb (truthy (VStr (strip content)))); [reflexivity |].
  unfold report.
  answers e [ ("system", prompt (strip content)) ]; reflexivity.
Qed.

(** X12.  The bot ends with status 0 or 1, and with 0 exactly when the
    findings file was there and blank, or the comment was created. *)
Theorem status_zero_iff (e : env) :
  (status (run e) = 0%Z \/ status (run e) = 1%Z)
  /\ (status (run e) = 0%Z
      <-> (exists content,
              lint_output_txt e = Some content /\ strip content = "")
          \/ (create_issue_comment_ok e = true
              /\ exists body, In (CreateIssueComment body) (calls (run e)))).
Proof.
  destruct (lint_output_txt e) as [content |] eqn:Hfile.
  2:{ unfold run. rewrite Hfile. split; [right; reflexivity |].
      split; [intros E; discriminate E |].
      intros [(content & E & _) | (_ & body & [])]. discriminate E. }
  destruct (String.eqb_spec (strip content) "") as [B | Hfound].
  { destruct (run_without_findings e) as [Hc Hs].
    { right. exists content. split; assumption. }
    rewrite Hfile in Hs. rewrite Hs. split; [left; reflexivity |].
    split; [| reflexivity].
    intros _. left. exists content. split; [reflexivity | exact B]. }
  rewrite (run_with_findings e content Hfile Hfound). unfold report.
  assert (Hblank : ~ exists content',
             Some content = Some content' /\ strip content' = "").
  { intros (content' & E & B). injection E as <-. exact (Hfound B). }
  answers e [ ("system", prompt (strip content)) ];
    cbn [io_bind request pure first_content check extend app
         status calls In];
    (split; [first [left; reflexivity | right; reflexivity] |]);
    (split;
     [ intros E; first [discriminate E | right; split; [reflexivity |];
                        eexists; do 3 right; left; reflexivity]
     | intros [Habs | (Hok & body & Hin)];
       [ exfalso; exact (Hblank Habs)
       | first [reflexivity | discriminate Hok
               | exfalso;
                 repeat (destruct Hin as [Hin | Hin]; try discriminate Hin);
                 exact Hin ] ] ]).
Qed.

(** X13.  The bot sends no request at all exactly when the findings file
    cannot be read (it is missing, unreadable or not decodable, so that
    [open] or [read] raises) or is blank. *)
Theorem no_request_iff (e : env) :
  calls (run e) = []
  <-> lint_output_txt e = None
      \/ exists content, lint_output_txt e = Some content /\ strip content = "".
Proof.
  split; [| intros Hno; apply run_without_findings; exact Hno].
  destruct (lint_output_txt e) as [content |] eqn:Hfile;
    [| intros _; left; reflexivity].
  destruct (String.eqb_spec (strip content) "") as [B | Hfound].
  - intros _. right. exists content. split; [reflexivity | exact B].
  - rewrite (run_with_findings e content Hfile Hfound). unfold report.
    answers e [ ("system", prompt (strip content)) ];
      cbn [io_bind request pure first_content check extend app calls];
      intros E; discriminate E.
Qed.

(** ** Reading the findings back *)

Lemma append_cancel_l (a x y : string) : a ++ x = a ++ y -> x = y.
Proof.
  induction a as [| c a IH]; cbn [String.append]; intros E; [exact E |].
  injection E as E. exact (IH E).
Qed.

Lemma length_append (x t : string) :
  String.length (x ++ t) = String.length x + String.length t.
Proof.
  induction x as [| c x IH]; cbn [String.append String.length];
    [reflexivity | rewrite IH; reflexivity].
Qed.

Lemma append_cancel_r (t : string) :
  forall x y, x ++ t = y ++ t -> x = y.
Proof.
  induction x as [| c x IH]; intros [| c' y] E.
  - reflexivity.
  - apply (f_equal String.length) in E.
    cbn [String.append String.length] in E. rewrite length_append in E. lia.
  - apply (f_equal String.length) in E.
    cbn [String.append String.length] in E. rewrite length_append in E. lia.
  - cbn [String.append] in E. injection E as -> E. rewrite (IH y E). reflexivity.
Qed.

(** X14.  The prompt determines the findings text and the comment body
    determines the summary: different findings never give the same prompt,
    and different summaries never give the same comment. *)
Theorem prompt_and_comment_injective :
  (forall a b, prompt a = prompt b -> a = b)
  /\ (forall a b, comment_body a = comment_body b -> a = b).
Proof.
  split; intros a b E.
  - unfold prompt in E. apply append_cancel_l in E.
    apply append_cancel_r in E. exact E.
  - unfold comment_body in E.
    apply append_cancel_l in E. apply append_cancel_l in E.
    apply append_cancel_l in E. apply append_cancel_r in E. exact E.
Qed.

(** ** The statements at the sample inputs *)

Lemma completion_failure_stops_witness :
  run mute_env
  = {| calls := [ ChatCompletion "gpt-4o-mini"
                    [ ("system", prompt (strip sample_findings)) ] ];
       printed := [];
       status := 1 |}.
Proof.
  apply (completion_failure_stops mute_env sample_findings eq_refl);
    [discriminate | intros reply others; discriminate].
Defined.

Lemma calls_in_program_order_witness :
  in_program_order (calls (run (sample_env (Some sample_findings)))) = true.
Proof. apply (calls_in_program_order (sample_env (Some sample_findings))). Defined.

Lemma status_zero_iff_witness :
  status (run (sample_env (Some sample_findings))) = 0%Z.
Proof.
  apply (proj2 (proj2 (status_zero_iff (sample_env (Some sample_findings))))).
  right. split; [reflexivity |].
  exists (comment_body sample_reply).
  vm_compute. do 3 right. left. reflexivity.
Defined.

Lemma no_request_iff_witness :
  calls (run (sample_env None)) = [].
Proof.
  apply (proj2 (no_request_iff (sample_env None))).
  left. reflexivity.
Defined.

Lemma prompt_and_comment_injective_witness :
  strip (sample_findings ++ nl) = sample_findings.
Proof.
  apply (proj1 prompt_and_comment_injective). reflexivity.
Defined.

End LintReportBehaviour.
